(** * License checker: crawl, extract, classify

    A shallow embedding of the [license_checker] package
    (parameters.py, license_identifier.py, data_extractor.py,
    request_manager.py, license_detector.py) and the properties of its
    pipeline.

    Modelling conventions.
    - Python [str] and [bytes] values are [string]s of 8-bit characters and
      the text operations ([lower], [strip], [split], the classes [\s], [\w],
      [\d]) are the ASCII ones: the model speaks about ASCII text.
    - The [re] module is embedded as a backtracking matcher with Python's
      priorities (leftmost start, alternatives left to right, greedy
      repetition); the five [LICENSE_PATTERNS] are transcribed token by token.
    - Library calls whose result depends on the outside world ([requests],
      [validators], [urllib.parse], [bs4], [protego], the enumeration order
      of a [set]) are fields of an environment record [Env]; HTTP goes
      through an explicit world state.
    - A Python computation that may raise is a value of [outcome]; a method
      that talks to the network is a state transformer over the world.
    - [print] and [time.sleep] have no effect on any returned value and are
      left out. *)

From Stdlib Require Import Ascii String NArith ZArith Bool List Lia DecimalString.
From stdpp Require Import base option list gmap strings.

(** ** Python [str] operations (ASCII) *)

Module Py.

Definition code (c : ascii) : N := N_of_ascii c.

Definition between (lo hi : N) (c : ascii) : bool :=
  ((lo <=? code c) && (code c <=? hi))%N.

(** [str.isspace] on one ASCII character: TAB..CR, FS..US and SPACE. *)
Definition isspace (c : ascii) : bool :=
  between 9 13 c || between 28 31 c || between 32 32 c.

Definition isdigit (c : ascii) : bool := between 48 57 c.

Definition isupper (c : ascii) : bool := between 65 90 c.

Definition islower (c : ascii) : bool := between 97 122 c.

(** [\w]: letters, digits and the underscore. *)
Definition isword (c : ascii) : bool :=
  isupper c || islower c || isdigit c || between 95 95 c.

Definition lower_char (c : ascii) : ascii :=
  if isupper c then ascii_of_N (code c + 32) else c.

(** [s.lower()] *)
Fixpoint lower (s : string) : string :=
  match s with
  | EmptyString => EmptyString
  | String c s' => String (lower_char c) (lower s')
  end.

(** [s.startswith(p)] *)
Fixpoint startswith (p s : string) : bool :=
  match p, s with
  | EmptyString, _ => true
  | String a p', String b s' => if ascii_dec a b then startswith p' s' else false
  | String _ _, EmptyString => false
  end.

(** [needle in hay] *)
Fixpoint contains (needle hay : string) : bool :=
  startswith needle hay ||
  match hay with
  | EmptyString => false
  | String _ hay' => contains needle hay'
  end.

(** Truthiness of a string: [if s] / [if not s]. *)
Definition truthy (s : string) : bool :=
  match s with EmptyString => false | String _ _ => true end.

Fixpoint lstrip (s : string) : string :=
  match s with
  | EmptyString => EmptyString
  | String c s' => if isspace c then lstrip s' else s
  end.

Fixpoint rstrip (s : string) : string :=
  match s with
  | EmptyString => EmptyString
  | String c s' =>
      match rstrip s' with
      | EmptyString => if isspace c then EmptyString else String c EmptyString
      | r => String c r
      end
  end.

(** [s.strip()] *)
Definition strip (s : string) : string := rstrip (lstrip s).

(** [s.replace(a, b)] for one-character [a] and [b]. *)
Fixpoint replace_char (a b : ascii) (s : string) : string :=
  match s with
  | EmptyString => EmptyString
  | String c s' =>
      String (if ascii_dec c a then b else c) (replace_char a b s')
  end.

(** [s.split()]: maximal runs of non-space characters. [cur] is the word
    being read, reversed. *)
Fixpoint split_go (cur : option string) (s : string) : list string :=
  match s with
  | EmptyString => option_list (String.rev <$> cur)
  | String c s' =>
      if isspace c
      then option_list (String.rev <$> cur) ++ split_go None s'
      else split_go (Some (String c (default EmptyString cur))) s'
  end.

Definition split (s : string) : list string := split_go None s.

(** [sep.join(l)] *)
Fixpoint join (sep : string) (l : list string) : string :=
  match l with
  | [] => EmptyString
  | [x] => x
  | x :: l' => x +:+ sep +:+ join sep l'
  end.

(** [s[:n]] *)
Fixpoint take (n : nat) (s : string) : string :=
  match n, s with
  | S n', String c s' => String c (take n' s')
  | _, _ => EmptyString
  end.

End Py.

(** ** Python [re]: a backtracking matcher *)

Module Re.

Inductive cls_item : Type :=
| CChar (c : ascii)      (* a literal member of a bracket class *)
| CSpace                 (* \s *)
| CDigit                 (* \d *)
| CWord.                 (* \w *)

Inductive regex : Type :=
| Eps
| Lit (c : ascii)
| Class (items : list cls_item)
| Boundary                                   (* \b *)
| Seq (r1 r2 : regex)
| Alt (r1 r2 : regex)                        (* r1|r2, r1 tried first *)
| Repeat (lo : nat) (hi : option nat) (r : regex).   (* greedy {lo,hi} *)

(** Every pattern of this program is compiled with [re.IGNORECASE]. *)
Definition char_eq_ci (a b : ascii) : bool :=
  if ascii_dec (Py.lower_char a) (Py.lower_char b) then true else false.

Definition item_matches (c : ascii) (i : cls_item) : bool :=
  match i with
  | CChar a => char_eq_ci a c
  | CSpace => Py.isspace c
  | CDigit => Py.isdigit c
  | CWord => Py.isword c
  end.

Definition class_matches (items : list cls_item) (c : ascii) : bool :=
  existsb (item_matches c) items.

Definition is_word_opt (c : option ascii) : bool :=
  match c with Some a => Py.isword a | None => false end.

Definition head (s : string) : option ascii :=
  match s with EmptyString => None | String c _ => Some c end.

(** [\b] holds between a word character and a non-word character (or an
    end of the text). *)
Definition at_boundary (prev : option ascii) (s : string) : bool :=
  xorb (is_word_opt prev) (is_word_opt (head s)).

Definition below (n : nat) (hi : option nat) : bool :=
  match hi with None => true | Some h => n <? h end.

(** [rmatch r prev s k] matches [r] at the front of [s], where [prev] is
    the character just before [s], and hands the position after the match
    to the continuation [k]; [None] makes the matcher backtrack.  The
    result is the text left after the whole match.

    A repetition is unrolled greedily; an iteration has to consume at least
    one character (no pattern of the program has a repetition whose body
    can match the empty string), so [length s] iterations suffice. *)
Fixpoint rmatch (r : regex) (prev : option ascii) (s : string)
    (k : option ascii → string → option string) {struct r} : option string :=
  match r with
  | Eps => k prev s
  | Lit c =>
      match s with
      | String a s' => if char_eq_ci c a then k (Some a) s' else None
      | EmptyString => None
      end
  | Class items =>
      match s with
      | String a s' => if class_matches items a then k (Some a) s' else None
      | EmptyString => None
      end
  | Boundary => if at_boundary prev s then k prev s else None
  | Seq r1 r2 => rmatch r1 prev s (λ p' s', rmatch r2 p' s' k)
  | Alt r1 r2 =>
      match rmatch r1 prev s k with
      | Some rest => Some rest
      | None => rmatch r2 prev s k
      end
  | Repeat lo hi r1 =>
      (fix loop (fuel n : nat) (prev : option ascii) (s : string)
           {struct fuel} : option string :=
         let leave := if lo <=? n then k prev s else None in
         match fuel with
         | O => leave
         | S fuel' =>
             let again :=
               if below n hi
               then rmatch r1 prev s
                      (λ p' s',
                        if String.length s' <? String.length s
                        then loop fuel' (S n) p' s'
                        else None)
               else None in
             match again with
             | Some rest => Some rest
             | None => leave
             end
         end) (String.length s) 0 prev s
  end.

(** The match object: [group(0)] and the text after it. *)
Record rmatch_result : Type := MatchObj { group0 : string; after : string }.

Definition match_at (r : regex) (prev : option ascii) (s : string)
  : option rmatch_result :=
  match rmatch r prev s (λ _ rest, Some rest) with
  | Some rest =>
      Some (MatchObj (Py.take (String.length s - String.length rest) s) rest)
  | None => None
  end.

(** [pattern.search(text)]: the first start position with a match. *)
Fixpoint search_from (r : regex) (prev : option ascii) (s : string)
  : option rmatch_result :=
  match match_at r prev s with
  | Some m => Some m
  | None =>
      match s with
      | EmptyString => None
      | String c s' => search_from r (Some c) s'
      end
  end.

Definition search (r : regex) (text : string) : option rmatch_result :=
  search_from r None text.

(** *** Pattern syntax *)

Fixpoint lits (s : string) : regex :=
  match s with
  | EmptyString => Eps
  | String c EmptyString => Lit c
  | String c s' => Seq (Lit c) (lits s')
  end.

Fixpoint seqs (l : list regex) : regex :=
  match l with
  | [] => Eps
  | [r] => r
  | r :: l' => Seq r (seqs l')
  end.

Fixpoint alts (l : list regex) : regex :=
  match l with
  | [] => Class []
  | [r] => r
  | r :: l' => Alt r (alts l')
  end.

Definition opt (r : regex) : regex := Repeat 0 (Some 1) r.
Definition star (r : regex) : regex := Repeat 0 None r.
Definition plus (r : regex) : regex := Repeat 1 None r.

(** [[\s-]] and [[-\s]] *)
Definition space_or_hyphen : regex := Class [CSpace; CChar "-"%char].
Definition digit : regex := Class [CDigit].
Definition word : regex := Class [CWord].
Definition space : regex := Class [CSpace].

End Re.

(** ** parameters.py *)

Module parameters.
Import Re.

Definition USER_AGENT : string := "MyCrawler/1.0".

(** [v?\d+(?:\.\d+)?] *)
Definition version_number : regex :=
  seqs [opt (Lit "v"); plus digit; opt (Seq (Lit ".") (plus digit))].

(** [\bMIT[-\s]+(?:\w+\s+){0,3}(?:License|Variant)] *)
Definition MIT_pattern : regex :=
  seqs [Boundary; lits "MIT"; plus space_or_hyphen;
        Repeat 0 (Some 3) (Seq (plus word) (plus space));
        alts [lits "License"; lits "Variant"]].

(** [\bApache[-\s]+(?:License[-\s]*(?:v?\d+(?:\.\d+)?)?|(?:v?\d+(?:\.\d+)?))\b] *)
Definition Apache_pattern : regex :=
  seqs [Boundary; lits "Apache"; plus space_or_hyphen;
        alts [seqs [lits "License"; star space_or_hyphen; opt version_number];
              version_number];
        Boundary].

(** [Share[\s-]?Alike], [Non[\s-]?Commercial], [No[\s-]?Derivatives] *)
Definition ShareAlike : regex :=
  seqs [lits "Share"; opt space_or_hyphen; lits "Alike"].
Definition NonCommercial : regex :=
  seqs [lits "Non"; opt space_or_hyphen; lits "Commercial"].
Definition NoDerivatives : regex :=
  seqs [lits "No"; opt space_or_hyphen; lits "Derivatives"].

(** [\d\.\d] *)
Definition one_dot_one : regex := seqs [digit; Lit "."; digit].

(** The Creative Commons pattern: a [\b], one of three alternatives, a
    [\b].  The alternatives, in order: ["CC"], one or more separators, one
    or more attributes each followed by at most one separator, an optional
    [\d\.\d]; ["Creative"], separators, ["Commons"], any separators, any
    number of attributes each followed by any separators, an optional
    [\d\.\d]; ["CC0"].  A separator is [[\s-]]. *)
Definition CC_pattern : regex :=
  seqs [Boundary;
        alts [
          seqs [lits "CC"; plus space_or_hyphen;
                plus (Seq (alts [lits "BY"; lits "Attribution"; lits "SA";
                                 ShareAlike; lits "NC"; NonCommercial;
                                 lits "ND"; NoDerivatives])
                          (opt space_or_hyphen));
                opt one_dot_one];
          seqs [lits "Creative"; plus space_or_hyphen; lits "Commons";
                star space_or_hyphen;
                star (Seq (alts [lits "Attribution"; ShareAlike; NonCommercial;
                                 NoDerivatives; lits "BY"; lits "SA";
                                 lits "NC"; lits "ND"])
                          (star space_or_hyphen));
                opt one_dot_one];
          lits "CC0"];
        Boundary].

(** [\b(?:GNU[\s-]+(?:A|L)?GPL|(?:A|L)?GPL[\s-]*(?:v?\d+(?:\.\d+)?)|General\s+Public\s+License)\b] *)
Definition GPL_pattern : regex :=
  seqs [Boundary;
        alts [
          seqs [lits "GNU"; plus space_or_hyphen;
                opt (Alt (Lit "A") (Lit "L")); lits "GPL"];
          seqs [opt (Alt (Lit "A") (Lit "L")); lits "GPL";
                star space_or_hyphen; version_number];
          seqs [lits "General"; plus space; lits "Public"; plus space;
                lits "License"]];
        Boundary].

(** [\bBSD[\s-]+(?:\d+[\s-]Clause|License)\b] *)
Definition BSD_pattern : regex :=
  seqs [Boundary; lits "BSD"; plus space_or_hyphen;
        alts [seqs [plus digit; space_or_hyphen; lits "Clause"];
              lits "License"];
        Boundary].

(** The dict, in insertion order. *)
Definition LICENSE_PATTERNS : list (string * regex) :=
  [("MIT License", MIT_pattern);
   ("Apache License", Apache_pattern);
   ("Creative Commons (CC)", CC_pattern);
   ("GNU GPL", GPL_pattern);
   ("BSD License", BSD_pattern)].

Definition CC_VERSIONS : list string := ["1.0"; "2.0"; "2.5"; "3.0"; "4.0"].

Definition CC_TYPES : list string :=
  ["BY"; "BY-SA"; "BY-ND"; "BY-NC"; "BY-NC-SA"; "BY-NC-ND"].

Definition CC_TYPE_MAP : gmap string string :=
  list_to_map
    [("attribution", "BY"); ("by", "BY");
     ("noncommercial", "NC"); ("non-commercial", "NC"); ("nc", "NC");
     ("sharealike", "SA"); ("share-alike", "SA"); ("sa", "SA");
     ("noderivatives", "ND"); ("no-derivatives", "ND"); ("nd", "ND")].

(** Adjacent string literals are concatenated by Python: the source list
    has "licensing" and "use" on consecutive lines with no comma between. *)
Definition RELEVANT_LINKS_KEYWORDS : list string :=
  ["terms"; "legal"; "license"; "licensing" +:+ "use"; "policy"; "copyright"].

Definition RELEVANT_TEXT_KEYWORDS : list string :=
  ["intellectual property"; "right"; "authorised"; "commercial use";
   "non-commercial use"; "fair use"; "license"; "copyright";
   "creative commons"; "cc by"; "gpl"; "apache"; "mit"; "bsd"].

End parameters.

(** ** Exceptions and effects *)

(** A raised Python exception: its class name and [str(e)]. *)
Record exn : Type := Exception { exn_class : string; str_exn : string }.

(** The result of a call that may raise. *)
Inductive outcome (A : Type) : Type :=
| Return (a : A)
| Raise (e : exn).
Arguments Return {A} a.
Arguments Raise {A} e.

Definition raised {A} (o : outcome A) : bool :=
  match o with Return _ => false | Raise _ => true end.

Definition obind {A B} (o : outcome A) (k : A → outcome B) : outcome B :=
  match o with
  | Return a => k a
  | Raise e => Raise e
  end.

(** A [for] loop whose body may raise: the exception leaves the loop. *)
Fixpoint ofold {A S} (body : S → A → outcome S) (l : list A) (s : S)
  : outcome S :=
  match l with
  | [] => Return s
  | x :: l' => obind (body s x) (ofold body l')
  end.

(** Calls that reach the network: state transformers over the world, which
    keep the world reached when an exception is raised. *)
Module IO.
Section monad.
Context {W : Type}.

Definition M (A : Type) : Type := W → outcome A * W.

Definition ret {A} (a : A) : M A := λ w, (Return a, w).

Definition lift {A} (o : outcome A) : M A := λ w, (o, w).

Definition bind {A B} (m : M A) (k : A → M B) : M B :=
  λ w, match m w with
       | (Return a, w') => k a w'
       | (Raise e, w') => (Raise e, w')
       end.

(** [try: body except Exception as e: handler(e)] *)
Definition try_except {A} (body : M A) (handler : exn → M A) : M A :=
  λ w, match body w with
       | (Return a, w') => (Return a, w')
       | (Raise e, w') => handler e w'
       end.

(** A [for] loop over [l] threading the loop state [s]. *)
Fixpoint for_each {A S} (body : S → A → M S) (l : list A) (s : S) : M S :=
  match l with
  | [] => ret s
  | x :: l' => bind (body s x) (for_each body l')
  end.
End monad.
Arguments M : clear implicits.
End IO.

Notation "'let*' x ':=' c 'in' k" := (IO.bind c (λ x, k))
  (at level 10, x pattern, c at level 100, k at level 200, only parsing).

(** ** bs4: the parsed document *)

Module bs4.

#[warning="-register-all"] Inductive node : Type :=
| NavigableString (s : string)
| Tag (name : string) (attrs : gmap string string) (contents : list node).

(** [tag.get(key)] *)
Definition get (key : string) (n : node) : option string :=
  match n with
  | NavigableString _ => None
  | Tag _ attrs _ => attrs !! key
  end.

(** [tag.get_text()]: the strings below the node, concatenated in document
    order. *)
Fixpoint get_text (n : node) : string :=
  match n with
  | NavigableString s => s
  | Tag _ _ contents =>
      (fix texts (l : list node) : string :=
         match l with
         | [] => ""
         | c :: l' => get_text c +:+ texts l'
         end) contents
  end.

(** The node itself when it is a tag named in [names], followed by the
    matching tags below it, in document order. *)
Fixpoint matching (names : list string) (n : node) : list node :=
  match n with
  | NavigableString _ => []
  | Tag name _ contents =>
      (if bool_decide (name ∈ names) then [n] else []) ++
      (fix below (l : list node) : list node :=
         match l with
         | [] => []
         | c :: l' => matching names c ++ below l'
         end) contents
  end.

(** [tag.find_all(names)]: the descendants of the tag with one of the
    names, in document order. *)
Definition find_all (names : list string) (n : node) : list node :=
  match n with
  | NavigableString _ => []
  | Tag _ _ contents => concat (map (matching names) contents)
  end.

End bs4.

(** ** The outside world *)

Record Response : Type :=
  { status_code : Z; reason : string; content : string }.

(** [response.text]: the body, decoded. *)
Definition text (r : Response) : string := content r.

(** [response.raise_for_status()] of [requests]: an [HTTPError] for the 4xx
    and 5xx statuses, nothing otherwise. *)
Definition raise_for_status (url : string) (r : Response) : outcome unit :=
  let status := DecimalString.NilZero.string_of_int (Z.to_int (status_code r)) in
  if (400 <=? status_code r)%Z && (status_code r <? 500)%Z then
    Raise (Exception "HTTPError"
             (status +:+ " Client Error: " +:+ reason r +:+ " for url: " +:+ url))
  else if (500 <=? status_code r)%Z && (status_code r <? 600)%Z then
    Raise (Exception "HTTPError"
             (status +:+ " Server Error: " +:+ reason r +:+ " for url: " +:+ url))
  else Return ().

Record Env : Type := {
  (** the state of the network and of the [requests.Session] *)
  World : Type;
  (** [session.get(url, timeout=10)] with the given [User-Agent] header *)
  session_get : string → string → IO.M World Response;
  (** [validators.url(url)], as a truth value *)
  validators_url : string → bool;
  (** [urlparse(url)]: its [scheme] and [netloc] *)
  urlparse : string → outcome (string * string);
  (** [urljoin(base, url)] *)
  urljoin : string → string → outcome string;
  (** [BeautifulSoup(content, "html.parser")] *)
  BeautifulSoup : string → outcome bs4.node;
  (** a parsed robots.txt, [Protego.parse(text)] and
      [robots.can_fetch(url, user_agent)] *)
  Protego : Type;
  Protego_parse : string → outcome Protego;
  can_fetch : Protego → string → string → bool;
  (** [list(s)] for a [set] of strings [s]: some enumeration of it *)
  list_of_set : gset string → list string;
  list_of_set_perm : ∀ X, list_of_set X ≡ₚ elements X
}.

(** ** license_identifier.py *)

Module LicenseIdentifier.
Import parameters.

(** [LICENSE_PATTERNS[name]] *)
Fixpoint pattern_of (name : string) (table : list (string * Re.regex))
  : option Re.regex :=
  match table with
  | [] => None
  | (n, p) :: rest => if decide (n = name) then Some p else pattern_of name rest
  end.

Definition _check_for_cc0 (url_lower text_lower : string) : option string :=
  if Py.contains "publicdomain/zero" url_lower
     || Py.contains "cc0" text_lower
     || Py.contains "creative commons zero" text_lower
  then Some "CC0"
  else None.

(** The inner loop [for cc_type in CC_TYPES] for one [version]. *)
Fixpoint scan_types (version : string) (types : list string)
    (url_lower : string) : option string :=
  match types with
  | [] => None
  | cc_type :: rest =>
      let cc_pattern_url := "licenses/" +:+ Py.lower cc_type +:+ "/" +:+ version in
      if Py.contains cc_pattern_url url_lower
      then Some ("CC-" +:+ cc_type +:+ "-" +:+ version)
      else scan_types version rest url_lower
  end.

(** The outer loop [for version in CC_VERSIONS]. *)
Fixpoint scan_versions (versions : list string) (url_lower : string)
  : option string :=
  match versions with
  | [] => None
  | version :: rest =>
      match scan_types version CC_TYPES url_lower with
      | Some label => Some label
      | None => scan_versions rest url_lower
      end
  end.

Definition _extract_license_from_url (url_lower : string) : option string :=
  scan_versions CC_VERSIONS url_lower.

(** The loop body of [_process_cc_type_text] on one word. *)
Definition map_word (word : string) : list string :=
  match CC_TYPE_MAP !! word with
  | Some abbreviation => [abbreviation]
  | None => if bool_decide (word ∈ CC_VERSIONS) then [word] else []
  end.

Definition _process_cc_type_text (type_str : string) : string :=
  if negb (Py.truthy type_str) then ""
  else
    let type_str := Py.replace_char "-" " " (Py.lower type_str) in
    let words := Py.split type_str in
    let mapped_words := concat (map map_word words) in
    Py.join "-" mapped_words.

Definition _extract_license_from_text (text_lower : string) : option string :=
  match pattern_of "Creative Commons (CC)" LICENSE_PATTERNS with
  | None => None                       (* KeyError, swallowed by [except] *)
  | Some cc_pattern =>
      match Re.search cc_pattern text_lower with
      | Some m =>
          let matched_text := Re.group0 m in
          let cc_type := _process_cc_type_text matched_text in
          if negb (Py.truthy cc_type) then None
          else Some ("CC-" +:+ cc_type)
      | None => None
      end
  end.

Definition determine_cc_license (url text : string) : string :=
  if negb (Py.truthy url) && negb (Py.truthy text) then "Unknown"
  else
    let url_lower := if Py.truthy url then Py.lower url else "" in
    let text_lower := if Py.truthy text then Py.lower text else "" in
    match _check_for_cc0 url_lower text_lower with
    | Some cc0_result => cc0_result
    | None =>
        match _extract_license_from_url url_lower with
        | Some specific_license => specific_license
        | None =>
            match _extract_license_from_text text_lower with
            | Some extracted_license => extracted_license
            | None => "Unknown"
            end
        end
    end.

(** The loop of [extract_licenses]: the names of the patterns found in
    [text] are added to the set [licenses]. *)
Fixpoint matching_names (table : list (string * Re.regex)) (text : string)
    (licenses : gset string) : gset string :=
  match table with
  | [] => licenses
  | (pattern_name, pattern) :: rest =>
      matching_names rest text
        (if Re.search pattern text is Some _
         then {[pattern_name]} ∪ licenses else licenses)
  end.

Section with_env.
Context (E : Env).

(** [extract_licenses]: [list(licenses)] of the set built by the loop. *)
Definition extract_licenses (text : string) : list string :=
  if negb (Py.truthy text) then []
  else list_of_set E (matching_names LICENSE_PATTERNS text ∅).

End with_env.
End LicenseIdentifier.

(** ** request_manager.py *)

Module RequestManager.
Section with_env.
Context (E : Env).

Record t : Type := { user_agent : string }.

Definition __init__ (user_agent : option string) : t :=
  {| user_agent :=
       match user_agent with
       | Some ua => if Py.truthy ua then ua else parameters.USER_AGENT
       | None => parameters.USER_AGENT
       end |}.

Definition set_user_agent (self : t) (user_agent : string) : t :=
  {| user_agent := user_agent |}.

Definition get_user_agent (self : t) : string := user_agent self.

Definition fetch_robots (self : t) (url : string)
  : IO.M (World E) (option (Protego E)) :=
  IO.try_except
    (let* target := IO.lift (urljoin E url "/robots.txt") in
     let* response := session_get E target (user_agent self) in
     if (status_code response =? 200)%Z
     then let* robots := IO.lift (Protego_parse E (text response)) in
          IO.ret (Some robots)
     else IO.ret None)
    (λ e, IO.ret None).

Definition is_allowed_by_robots (self : t) (url : string)
  : IO.M (World E) bool :=
  if negb (Py.truthy url) then IO.ret false
  else
    let* robots := fetch_robots self url in
    IO.ret (match robots with
            | Some robots => can_fetch E robots url (user_agent self)
            | None => true
            end).

Definition fetch_page (self : t) (url : string)
  : IO.M (World E) (option string) :=
  if negb (Py.truthy url) then IO.ret None
  else
    let* response := session_get E url (user_agent self) in
    let* _ := IO.lift (raise_for_status url response) in
    IO.ret (Some (content response)).

End with_env.
End RequestManager.

(** ** data_extractor.py *)

Module DataExtractor.
Import parameters.

(** [re.split(r'\.(?=\s|$)', text)]: cut at every period that is followed by
    a white-space character or ends the text.  [cur] is the piece being
    read, reversed. *)
Fixpoint split_go (cur : string) (s : string) : list string :=
  match s with
  | EmptyString => [String.rev cur]
  | String c s' =>
      if bool_decide (c = "."%char) &&
         match s' with
         | EmptyString => true
         | String d _ => Py.isspace d
         end
      then String.rev cur :: split_go "" s'
      else split_go (String c cur) s'
  end.

Definition split_sentences (text : string) : list string := split_go "" text.

Definition _contains_keyword (text : string) (keywords : list string) : bool :=
  if negb (Py.truthy text) || bool_decide (keywords = []) then false
  else
    let text_lower := Py.lower text in
    existsb (λ keyword, Py.contains (Py.lower keyword) text_lower) keywords.

Definition _contains_pattern (text : string)
    (patterns : list (string * Re.regex)) : bool :=
  if negb (Py.truthy text) || bool_decide (patterns = []) then false
  else
    let text_lower := Py.lower text in
    existsb (λ '(pattern_name, pattern),
               if Re.search pattern text_lower is Some _ then true else false)
            patterns.

(** The sentences one [p], [li] or [span] element contributes. *)
Definition relevant_sentences (element : bs4.node) : list string :=
  let text := Py.strip (bs4.get_text element) in
  let text_parts := split_sentences text in
  filter (λ sentence, _contains_keyword sentence RELEVANT_TEXT_KEYWORDS)
         (map Py.strip text_parts).

Definition extract_relevant_text (soup : option bs4.node) : string :=
  match soup with
  | None => ""
  | Some soup =>
      let elements := bs4.find_all ["p"; "li"; "span"] soup in
      let sentences := concat (map relevant_sentences elements) in
      Py.join ". " sentences
  end.

Section with_env.
Context (E : Env).

Record t : Type :=
  { request_manager : option RequestManager.t; request_delay : Z }.

Definition __init__ (request_manager : RequestManager.t) : t :=
  {| request_manager := Some request_manager; request_delay := 1 |}.

Definition parse_html (content : option string) : outcome (option bs4.node) :=
  match content with
  | None => Return None
  | Some content =>
      if negb (Py.truthy content) then Return None
      else obind (BeautifulSoup E content) (λ soup, Return (Some soup))
  end.

(** The loop state of [extract_footer_links]. *)
Record footer_state : Type :=
  { license_link : string; license_text : string; relevant_links : gset string }.

(** The body of the inner loop, for one anchor. *)
Definition visit_link (base_url : string) (st : footer_state) (link : bs4.node)
  : outcome footer_state :=
  match bs4.get "href" link with
  | None => Return st                                       (* continue *)
  | Some href =>
      if negb (Py.truthy href) then Return st               (* continue *)
      else
        obind (urljoin E base_url href) (λ absolute_url,
          let text := Py.strip (bs4.get_text link) in
          if negb (Py.truthy (license_link st))
             && _contains_pattern text LICENSE_PATTERNS
          then Return {| license_link := absolute_url;
                         license_text := text;
                         relevant_links := relevant_links st |}   (* continue *)
          else if _contains_keyword text RELEVANT_LINKS_KEYWORDS
          then Return {| license_link := license_link st;
                         license_text := license_text st;
                         relevant_links := {[absolute_url]} ∪ relevant_links st |}
          else Return st)
  end.

(** The body of the outer loop, for one footer. *)
Definition visit_footer (base_url : string) (st : footer_state)
    (footer : bs4.node) : outcome footer_state :=
  ofold (visit_link base_url) (bs4.find_all ["a"] footer) st.

Definition extract_footer_links (soup : option bs4.node) (base_url : string)
  : outcome (string * string * list string) :=
  match soup with
  | None => Return ("", "", [])
  | Some soup =>
      if negb (Py.truthy base_url) then Return ("", "", [])
      else
        let footers := bs4.find_all ["footer"] soup in
        obind (ofold (visit_footer base_url) footers
                 {| license_link := ""; license_text := ""; relevant_links := ∅ |})
          (λ st, Return (license_link st, license_text st,
                         list_of_set E (relevant_links st)))
  end.

(** The body of the loop of [process_relevant_links], for one link. *)
Definition visit_relevant (rm : RequestManager.t) (combined_content : list string)
    (link : string) : IO.M (World E) (list string) :=
  let* content := RequestManager.fetch_page E rm link in
  if match content with Some c => Py.truthy c | None => false end
  then
    let* soup := IO.lift (parse_html content) in
    let extracted := extract_relevant_text soup in
    if Py.truthy extracted
    then IO.ret (combined_content ++ [extracted])
    else IO.ret combined_content
  else IO.ret combined_content.

Definition process_relevant_links (self : t) (links : list string)
  : IO.M (World E) string :=
  match links, request_manager self with
  | [], _ | _, None => IO.ret ""
  | _, Some rm =>
      let* combined_content := IO.for_each (visit_relevant rm) links [] in
      IO.ret (Py.join " " combined_content)
  end.

End with_env.
End DataExtractor.

(** ** license_detector.py *)

(** The values stored in a result dict. *)
Inductive pyval : Type :=
| PyNone
| PyBool (b : bool)
| PyStr (s : string)
| PyList (l : list string).

Module LicenseDetector.
Section with_env.
Context (E : Env).

Record t : Type := {
  request_manager : RequestManager.t;
  data_extractor : DataExtractor.t
}.

Definition __init__ (user_agent : option string) : t :=
  let rm := RequestManager.__init__ user_agent in
  {| request_manager := rm; data_extractor := DataExtractor.__init__ rm |}.

Definition _validate_url (url : string) : bool :=
  if Py.truthy url then validators_url E url else false.

Definition _normalize_url (url : string) : string :=
  match urlparse E url with
  | Return (scheme, netloc) => scheme +:+ "://" +:+ netloc
  | Raise e => url
  end.

(** The dict [_process_website] starts from. *)
Definition initial_result (url : string) : gmap string pyval :=
  list_to_map
    [("website", PyStr url);
     ("invalidUrl", PyBool false);
     ("blockedByRobotsTxt", PyBool false);
     ("licenseLink", PyNone);
     ("licenseType", PyNone);
     ("relevantLinks", PyList []);
     ("licenseMentions", PyList []);
     ("content", PyNone)].

Definition _process_website (self : t) (url : string)
  : IO.M (World E) (gmap string pyval) :=
  let result := initial_result url in
  if negb (_validate_url url)
  then IO.ret (<["invalidUrl" := PyBool true]> result)
  else
    let base_url := _normalize_url url in
    let* allowed :=
      RequestManager.is_allowed_by_robots E (request_manager self) base_url in
    if negb allowed
    then IO.ret (<["blockedByRobotsTxt" := PyBool true]> result)
    else
      let* content := RequestManager.fetch_page E (request_manager self) url in
      if negb (match content with Some c => Py.truthy c | None => false end)
      then IO.ret result
      else
        let* soup := IO.lift (DataExtractor.parse_html E content) in
        match soup with
        | None => IO.ret result
        | Some _ =>
            let* footer :=
              IO.lift (DataExtractor.extract_footer_links E soup url) in
            let '(license_link, license_text, relevant_links) := footer in
            let license_type :=
              LicenseIdentifier.determine_cc_license license_link license_text in
            let* content :=
              DataExtractor.process_relevant_links E (data_extractor self)
                relevant_links in
            let license_mentions := LicenseIdentifier.extract_licenses E content in
            let license_type :=
              if bool_decide (license_type = "Unknown")
              then LicenseIdentifier.determine_cc_license "" content
              else license_type in
            IO.ret (<["licenseMentions" := PyList license_mentions]>
                    (<["content" := PyStr content]>
                    (<["relevantLinks" := PyList relevant_links]>
                    (<["licenseType" := PyStr license_type]>
                    (<["licenseLink" := PyStr license_link]> result)))))
        end.

(** The body of the loop of [scan_websites]: one site appended to
    [self.all_data], the list the method resets, fills and returns. *)
Definition scan_one (self : t) (all_data : list (gmap string pyval))
    (url : string) : IO.M (World E) (list (gmap string pyval)) :=
  IO.try_except
    (let* result := _process_website self url in
     IO.ret (all_data ++ [result]))
    (λ e, IO.ret (all_data ++
                    [list_to_map [("website", PyStr url);
                                  ("error", PyStr (str_exn e))]])).

Definition scan_websites (self : t) (sites : list string)
  : IO.M (World E) (list (gmap string pyval)) :=
  match sites with
  | [] => IO.ret []
  | _ => IO.for_each (scan_one self) sites []
  end.

End with_env.
End LicenseDetector.

(** ** A static web, for running the pipeline on concrete sites *)

Module Scenario.

Fixpoint assoc {A} (key : string) (table : list (string * A)) : option A :=
  match table with
  | [] => None
  | (k, v) :: rest => if decide (k = key) then Some v else assoc key rest
  end.

(** The text before the first [sep] and the text after it. *)
Fixpoint cut (sep : ascii) (s : string) : string * string :=
  match s with
  | EmptyString => ("", "")
  | String c s' =>
      if decide (c = sep) then ("", s')
      else let '(before, after) := cut sep s' in (String c before, after)
  end.

(** [s[n:]] *)
Fixpoint drop (n : nat) (s : string) : string :=
  match n, s with
  | S n', String _ s' => drop n' s'
  | _, _ => s
  end.

(** [scheme://netloc/...]: the scheme and the host of such a URL. *)
Definition scheme_netloc (url : string) : string * string :=
  let '(scheme, rest) := cut ":" url in
  let '(netloc, _) := cut "/" (drop 2 rest) in
  (scheme, netloc).

Definition origin (url : string) : string :=
  let '(scheme, netloc) := scheme_netloc url in scheme +:+ "://" +:+ netloc.

(** References are absolute URLs or absolute paths. *)
Definition join (base href : string) : string :=
  if Py.startswith "/" href then origin base +:+ href else href.

Record web : Type := {
  (** what a GET of each URL gives; a URL not listed is unreachable *)
  pages : list (string * outcome Response);
  (** the document tree of each page body *)
  documents : list (string * bs4.node)
}.

Definition ok (body : string) : outcome Response :=
  Return {| status_code := 200; reason := "OK"; content := body |}.

Definition not_found : outcome Response :=
  Return {| status_code := 404; reason := "Not Found"; content := "" |}.

Definition unreachable (url : string) : outcome Response :=
  Raise (Exception "ConnectionError" ("Failed to establish a connection to " +:+ url)).

(** The world is the log of the URLs requested so far. *)
Definition get (W : web) (url user_agent : string) : IO.M (list string) Response :=
  λ log, (default (unreachable url) (assoc url (pages W)), log ++ [url]).

Definition static_env (W : web) : Env := {|
  World := list string;
  session_get := get W;
  validators_url url := Py.startswith "http://" url || Py.startswith "https://" url;
  urlparse url := Return (scheme_netloc url);
  urljoin base href := Return (join base href);
  BeautifulSoup body :=
    Return (default (bs4.Tag "[document]" ∅ []) (assoc body (documents W)));
  Protego := string;
  Protego_parse body := Return body;
  can_fetch robots url user_agent := negb (Py.contains "Disallow: /" robots);
  list_of_set := elements;
  list_of_set_perm X := reflexivity (elements X)
|}.

(** Document builders. *)
Definition document (contents : list bs4.node) : bs4.node :=
  bs4.Tag "[document]" ∅ contents.
Definition footer (contents : list bs4.node) : bs4.node :=
  bs4.Tag "footer" ∅ contents.
Definition a (href text : string) : bs4.node :=
  bs4.Tag "a" {["href" := href]} [bs4.NavigableString text].
Definition p (text : string) : bs4.node :=
  bs4.Tag "p" ∅ [bs4.NavigableString text].

Definition detector : LicenseDetector.t := LicenseDetector.__init__ None.

(** Scenario A: a malformed input. *)
Definition empty_web : web := {| pages := []; documents := [] |}.

(** Scenario B: the footer's only anchor is the license link. *)
Definition mit_page : bs4.node :=
  document [footer [a "/license" "MIT License"]].

Definition mit_web : web := {|
  pages := [("https://x.org/", ok "<mit_page>")];
  documents := [("<mit_page>", mit_page)]
|}.

(** A site whose footer links a CC BY 4.0 deed and a terms page, and whose
    terms page mentions CC0. *)
Definition cc_page : bs4.node :=
  document
    [p "Welcome.";
     footer [a "https://creativecommons.org/licenses/by/4.0/" "CC BY 4.0";
             a "/terms" "Terms of use"]].

Definition cc_terms_page : bs4.node :=
  document [p "Photos are licensed under CC0. Text is under copyright."].

Definition cc_web : web := {|
  pages := [("https://cc.example/", ok "<cc_page>");
            ("https://cc.example/terms", ok "<cc_terms_page>")];
  documents := [("<cc_page>", cc_page); ("<cc_terms_page>", cc_terms_page)]
|}.

(** A robots.txt that keeps every crawler out. *)
Definition deny_all : string :=
  "User-agent: *" +:+ String "010"%char "Disallow: /".

(** A site whose terms link is broken, a site that answers 404, a site
    with an empty front page and a site that robots.txt closes. *)
Definition broken_page : bs4.node :=
  document [footer [a "/terms" "Terms"; a "/legal" "Legal notice"]].

Definition legal_page : bs4.node :=
  document [p "All rights reserved."].

Definition broken_web : web := {|
  pages := [("https://broken.example/", ok "<broken_page>");
            ("https://broken.example/terms", not_found);
            ("https://broken.example/legal", ok "<legal_page>");
            ("https://gone.example/", not_found);
            ("https://empty.example/", ok "");
            ("https://blocked.example/robots.txt", ok deny_all);
            ("https://blocked.example/", ok "<legal_page>");
            ("https://x.org/", ok "<mit_page>")];
  documents := [("<broken_page>", broken_page); ("<legal_page>", legal_page);
                ("<mit_page>", mit_page)]
|}.

(** A footer with several anchors: two before the license link, one
    without an address, two after the license link. *)
Definition links_page : bs4.node :=
  document
    [footer [a "/about" "About us"; a "/terms" " Terms "];
     p "Some text.";
     footer [bs4.Tag "a" ∅ [bs4.NavigableString "GPL v3"];
             a "/license" "MIT License";
             a "/gpl" "GNU GPL license";
             a "/privacy" "Privacy policy";
             a "/howto" "How to use this site"]].

(** A site without a license link whose terms page mentions CC0 next to
    an attribution license. *)
Definition cc0_page : bs4.node :=
  document [footer [a "/terms" "Terms"]].

Definition cc0_terms_page : bs4.node :=
  document
    [p "Photos are licensed under CC0 and Creative Commons Attribution 4.0."].

Definition cc0_web : web := {|
  pages := [("https://zero.example/", ok "<cc0_page>");
            ("https://zero.example/terms", ok "<cc0_terms_page>")];
  documents := [("<cc0_page>", cc0_page); ("<cc0_terms_page>", cc0_terms_page)]
|}.

End Scenario.

(** ** The two scanning orders of the URL stage *)

Module UrlScan.
Import parameters.

Definition url_pattern (cc_type version : string) : string :=
  "licenses/" +:+ Py.lower cc_type +:+ "/" +:+ version.

Definition label (cc_type version : string) : string :=
  "CC-" +:+ cc_type +:+ "-" +:+ version.

(** The (version, type) combinations with the versions in the outer
    position: all types of version 1.0, then all types of 2.0, ... *)
Definition version_major : list (string * string) :=
  version ← CC_VERSIONS; cc_type ← CC_TYPES; [(version, cc_type)].

(** The same combinations with the types in the outer position: all
    versions of BY, then all versions of BY-SA, ... *)
Definition type_major : list (string * string) :=
  cc_type ← CC_TYPES; version ← CC_VERSIONS; [(version, cc_type)].

(** The label of the first combination of [combinations] whose pattern
    occurs in [url_lower]. *)
Definition first_match (combinations : list (string * string))
    (url_lower : string) : option string :=
  match List.find (λ '(version, cc_type),
                     Py.contains (url_pattern cc_type version) url_lower)
                  combinations with
  | Some (version, cc_type) => Some (label cc_type version)
  | None => None
  end.

End UrlScan.

(** ** The footer anchors as the loops of [extract_footer_links] see them *)

Module Footer.
Import parameters DataExtractor.

(** The anchors in visiting order: footers in document order, the anchors
    of each footer in document order. *)
Definition anchors (soup : bs4.node) : list bs4.node :=
  footer ← bs4.find_all ["footer"] soup; bs4.find_all ["a"] footer.

Section with_env.
Context (E : Env).

(** What the loop body reads off one anchor: nothing when the anchor has
    no (or an empty) [href], else its resolved URL and stripped text. *)
Definition resolve (base_url : string) (link : bs4.node)
  : outcome (list (string * string)) :=
  match bs4.get "href" link with
  | None => Return []
  | Some href =>
      if negb (Py.truthy href) then Return []
      else obind (urljoin E base_url href)
             (λ absolute_url, Return [(absolute_url, Py.strip (bs4.get_text link))])
  end.

Fixpoint resolve_all (base_url : string) (links : list bs4.node)
  : outcome (list (string * string)) :=
  match links with
  | [] => Return []
  | link :: rest =>
      obind (resolve base_url link) (λ entry,
        obind (resolve_all base_url rest) (λ entries, Return (entry ++ entries)))
  end.

End with_env.

(** The text of an entry names a license: one of the five patterns is
    found in it. *)
Definition names_license (entry : string * string) : bool :=
  _contains_pattern (snd entry) LICENSE_PATTERNS.

(** The text of an entry contains a relevant-link keyword. *)
Definition has_keyword (entry : string * string) : bool :=
  _contains_keyword (snd entry) RELEVANT_LINKS_KEYWORDS.

(** The loop body on a resolved entry. *)
Definition step (st : footer_state) (entry : string * string) : footer_state :=
  if negb (Py.truthy (license_link st)) && names_license entry
  then {| license_link := fst entry; license_text := snd entry;
          relevant_links := relevant_links st |}
  else if has_keyword entry
  then {| license_link := license_link st; license_text := license_text st;
          relevant_links := {[fst entry]} ∪ relevant_links st |}
  else st.

(** The URLs of the entries whose text contains a keyword. *)
Fixpoint keyword_urls (entries : list (string * string)) : gset string :=
  match entries with
  | [] => ∅
  | entry :: rest =>
      (if has_keyword entry then {[fst entry]} else ∅) ∪ keyword_urls rest
  end.

End Footer.

(** ** Runs of the pipeline *)

Module Batch.
Section with_env.
Context (E : Env) (self : LicenseDetector.t).

(** The dict appended by the [except] branch of [scan_websites]. *)
Definition error_result (url : string) (e : exn) : gmap string pyval :=
  list_to_map [("website", PyStr url); ("error", PyStr (str_exn e))].

(** What one iteration of the loop appends for [url] in the world [w]. *)
Definition site_result (url : string) (w : World E) : gmap string pyval :=
  match LicenseDetector._process_website E self url w with
  | (Return result, _) => result
  | (Raise e, _) => error_result url e
  end.

(** The world after the sites of [sites] have been processed in turn. *)
Fixpoint world_after (sites : list string) (w : World E) : World E :=
  match sites with
  | [] => w
  | url :: rest =>
      world_after rest (LicenseDetector._process_website E self url w).2
  end.

Fixpoint site_results (sites : list string) (w : World E)
  : list (gmap string pyval) :=
  match sites with
  | [] => []
  | url :: rest =>
      site_result url w ::
      site_results rest (LicenseDetector._process_website E self url w).2
  end.

(** A run of [_process_website] up to the footer: the URL is valid,
    robots.txt allows it, the front page is fetched with a non-empty body and
    parsed, and the footer is read as [(link, text, links)]. *)
Inductive footer_run (url : string) (w : World E)
    (link text : string) (links : list string) (w2 : World E) : Prop :=
| FooterRun (w1 : World E) (body : string) (soup : bs4.node)
    (Hvalid : LicenseDetector._validate_url E url = true)
    (Hrobots : RequestManager.is_allowed_by_robots E
                 (LicenseDetector.request_manager self)
                 (LicenseDetector._normalize_url E url) w = (Return true, w1))
    (Hfetch : RequestManager.fetch_page E
                (LicenseDetector.request_manager self) url w1
              = (Return (Some body), w2))
    (Hbody : Py.truthy body = true)
    (Hparse : DataExtractor.parse_html E (Some body) = Return (Some soup))
    (Hfooter : DataExtractor.extract_footer_links E (Some soup) url
               = Return (link, text, links)).

(** A run that gets through every early return: after the footer, the
    relevant links aggregate to [content]. *)
Definition full_run (url : string) (w : World E)
    (link text : string) (links : list string) (content : string)
    (w' : World E) : Prop :=
  ∃ w2, footer_run url w link text links w2 ∧
        DataExtractor.process_relevant_links E
          (LicenseDetector.data_extractor self) links w2 = (Return content, w').

End with_env.

(** The result of the full pipeline, as [_process_website] assembles it. *)
Definition full_result (url link type_ : string) (links : list string)
    (content : string) (mentions : list string) : gmap string pyval :=
  <["licenseMentions" := PyList mentions]>
  (<["content" := PyStr content]>
  (<["relevantLinks" := PyList links]>
  (<["licenseType" := PyStr type_]>
  (<["licenseLink" := PyStr link]> (LicenseDetector.initial_result url))))).

(** The label the pipeline settles on. *)
Definition site_label (link text content : string) : string :=
  if bool_decide (LicenseIdentifier.determine_cc_license link text = "Unknown")
  then LicenseIdentifier.determine_cc_license "" content
  else LicenseIdentifier.determine_cc_license link text.

Definition truthy_content (content : option string) : bool :=
  match content with Some c => Py.truthy c | None => false end.

(** A CC0 indicator in a (URL, text) signal. *)
Definition cc0_indicator (url text : string) : bool :=
  Py.contains "publicdomain/zero" (Py.lower url)
  || Py.contains "cc0" (Py.lower text)
  || Py.contains "creative commons zero" (Py.lower text).

(** The labels of the classifier. *)
Definition is_label (s : string) : Prop :=
  s = "Unknown" ∨ s = "CC0" ∨ ∃ rest, s = "CC-" +:+ rest.

End Batch.

(** ** Pages with an unresolvable address or a link outside the footer *)

Module Hazard.

(** [urljoin] rejects a bracketed host that is not an IP literal with a
    [ValueError]. *)
Definition join (base href : string) : outcome string :=
  if Py.startswith "http://[" href
  then Raise (Exception "ValueError" "Invalid IPv6 URL")
  else Return (Scenario.join base href).

Definition strict_env (W : Scenario.web) : Env := {|
  World := list string;
  session_get := Scenario.get W;
  validators_url url := Py.startswith "http://" url || Py.startswith "https://" url;
  urlparse url := Return (Scenario.scheme_netloc url);
  urljoin := join;
  BeautifulSoup body :=
    Return (default (bs4.Tag "[document]" ∅ [])
              (Scenario.assoc body (Scenario.documents W)));
  Protego := string;
  Protego_parse body := Return body;
  can_fetch robots url user_agent := negb (Py.contains "Disallow: /" robots);
  list_of_set := elements;
  list_of_set_perm X := reflexivity (elements X)
|}.

(** A front page whose footer has a good link and a malformed one. *)
Definition odd_page : bs4.node :=
  Scenario.document
    [Scenario.footer [Scenario.a "/terms" "Terms";
                      Scenario.a "http://[legal" "Legal notice"]].

Definition odd_web : Scenario.web := {|
  Scenario.pages := [("https://odd.example/", Scenario.ok "<odd_page>");
                     ("https://odd.example/terms", Scenario.ok "<terms>")];
  Scenario.documents := [("<odd_page>", odd_page)]
|}.

(** A page whose only license link is outside any footer. *)
Definition bare_page : bs4.node :=
  Scenario.document [Scenario.a "/license" "MIT License";
                     Scenario.p "Released under the MIT License."].

End Hazard.

(** * Properties *)

(** ** Text *)

Lemma truthy_lower (s : string) :
  (if Py.truthy s then Py.lower s else "") = Py.lower s.
Proof. by destruct s. Qed.

Lemma truthy_false (s : string) : Py.truthy s = false ↔ s = "".
Proof. destruct s; naive_solver. Qed.

Lemma contains_empty (needle : string) :
  Py.truthy needle = true → Py.contains needle "" = false.
Proof. by destruct needle. Qed.

Lemma list_of_set_elem (E : Env) (X : gset string) (x : string) :
  x ∈ list_of_set E X ↔ x ∈ X.
Proof. by rewrite (list_of_set_perm E X), elem_of_elements. Qed.

Lemma list_of_set_NoDup (E : Env) (X : gset string) : NoDup (list_of_set E X).
Proof. rewrite (list_of_set_perm E X). apply NoDup_elements. Qed.

(** ** The classifier *)

Section classifier.
Import parameters UrlScan LicenseIdentifier.

Lemma first_match_app (l1 l2 : list (string * string)) (u : string) :
  first_match (l1 ++ l2) u =
  match first_match l1 u with
  | Some found => Some found
  | None => first_match l2 u
  end.
Proof.
  unfold first_match. induction l1 as [|[v t] l1 IH]; simpl; [done|].
  destruct (Py.contains (url_pattern t v) u); [done|]. apply IH.
Qed.

Lemma scan_types_first_match (version : string) (types : list string) (u : string) :
  scan_types version types u =
  first_match (cc_type ← types; [(version, cc_type)]) u.
Proof.
  induction types as [|t types IH]; simpl; [done|].
  unfold first_match; simpl. fold (url_pattern t version).
  destruct (Py.contains (url_pattern t version) u); [done|]. apply IH.
Qed.

Lemma scan_versions_first_match (versions : list string) (u : string) :
  scan_versions versions u =
  first_match (version ← versions; cc_type ← CC_TYPES; [(version, cc_type)]) u.
Proof.
  induction versions as [|v versions IH]; [done|].
  cbn [scan_versions]. rewrite scan_types_first_match, IH.
  by rewrite bind_cons, first_match_app.
Qed.

(** C5 (as the code has it): the URL stage scans the 30 combinations with
    the version in the outer loop and the type in the inner loop, and
    returns the label "CC-{type}-{version}" of the first combination, in
    that order, whose pattern "licenses/{type}/{version}" occurs in the
    lowercased URL; when no CC0 indicator is present that label is the
    value of [determine_cc_license]. *)
Theorem url_stage_version_major :
  length version_major = 30 ∧
  (∀ url_lower,
     _extract_license_from_url url_lower = first_match version_major url_lower) ∧
  (∀ url text found,
     _check_for_cc0 (Py.lower url) (Py.lower text) = None →
     first_match version_major (Py.lower url) = Some found →
     determine_cc_license url text = found).
Proof.
  split; [done|]. split.
  - intros u. apply scan_versions_first_match.
  - intros url text found Hcc0 Hfound.
    unfold determine_cc_license. rewrite !truthy_lower, Hcc0.
    unfold _extract_license_from_url.
    rewrite scan_versions_first_match. fold version_major. rewrite Hfound.
    destruct url; [|done]. by vm_compute in Hfound.
Qed.

Lemma url_stage_version_major_witness :
  _extract_license_from_url "https://creativecommons.org/licenses/by-nc/3.0/"
    = Some "CC-BY-NC-3.0" ∧
  determine_cc_license "https://creativecommons.org/licenses/BY-NC/3.0/" "Some rights reserved"
    = "CC-BY-NC-3.0".
Proof.
  destruct url_stage_version_major as (_ & Hscan & Hdet). split.
  - rewrite Hscan. vm_compute. reflexivity.
  - apply Hdet; vm_compute; reflexivity.
Defined.

(** C5 (as stated) fails: on a URL in which both "licenses/by/4.0" and
    "licenses/by-sa/1.0" occur, a type-major scan meets BY/4.0 first, while
    the code answers with BY-SA/1.0. *)
Lemma url_stage_not_type_major :
  first_match type_major "https://x.org/licenses/by/4.0/?alt=licenses/by-sa/1.0"
    = Some "CC-BY-4.0" ∧
  _extract_license_from_url "https://x.org/licenses/by/4.0/?alt=licenses/by-sa/1.0"
    = Some "CC-BY-SA-1.0".
Proof. split; vm_compute; reflexivity. Qed.

(** C7: the text "Creative Commons Attribution-ShareAlike 4.0" is reported
    as a mention of "Creative Commons (CC)", and with an empty URL it is
    classified as "CC-BY-SA-4.0": the whole lowercased text is matched, its
    words are mapped in source order, the version is kept as it is. *)
Theorem scenario_C_sharealike :
  let text := "Creative Commons Attribution-ShareAlike 4.0" in
  (∀ E : Env, "Creative Commons (CC)" ∈ extract_licenses E text) ∧
  determine_cc_license "" text = "CC-BY-SA-4.0" ∧
  Re.group0 <$> Re.search CC_pattern (Py.lower text)
    = Some "creative commons attribution-sharealike 4.0" ∧
  Py.split (Py.replace_char "-" " " "creative commons attribution-sharealike 4.0")
    = ["creative"; "commons"; "attribution"; "sharealike"; "4.0"] ∧
  map map_word ["creative"; "commons"; "attribution"; "sharealike"; "4.0"]
    = [[]; []; ["BY"]; ["SA"]; ["4.0"]].
Proof.
  intros text. split; [|by vm_compute].
  intros E. unfold extract_licenses. cbn [Py.truthy text negb].
  apply list_of_set_elem.
  assert (matching_names LICENSE_PATTERNS text ∅ = {["Creative Commons (CC)"]})
    as -> by (vm_compute; reflexivity).
  by apply elem_of_singleton.
Qed.

End classifier.

(** ** Substrings *)

Section substrings.

Lemma lower_app (a b : string) : Py.lower (a +:+ b) = Py.lower a +:+ Py.lower b.
Proof.
  induction a as [|c a IH]; [done|].
  change (String c a +:+ b) with (String c (a +:+ b)). cbn [Py.lower].
  by rewrite IH.
Qed.

Lemma startswith_app_r (k x b : string) :
  Py.startswith k x = true → Py.startswith k (x +:+ b) = true.
Proof.
  revert x. induction k as [|c k IH]; intros [|d x] H; try done.
  change (String d x +:+ b) with (String d (x +:+ b)).
  cbn [Py.startswith] in *. destruct (ascii_dec c d); [auto|done].
Qed.

Lemma contains_app_r (k x b : string) :
  Py.contains k x = true → Py.contains k (x +:+ b) = true.
Proof.
  induction x as [|d x IH]; cbn [Py.contains]; intros H.
  - rewrite orb_false_r in H. destruct k; [|done]. by destruct b.
  - change (String d x +:+ b) with (String d (x +:+ b)). cbn [Py.contains].
    apply orb_true_iff in H as [H|H]; apply orb_true_iff.
    + left. by apply (startswith_app_r k (String d x) b).
    + right. auto.
Qed.

Lemma contains_app_l (k a x : string) :
  Py.contains k x = true → Py.contains k (a +:+ x) = true.
Proof.
  intros H. induction a as [|c a IH]; [done|].
  change (String c a +:+ x) with (String c (a +:+ x)). cbn [Py.contains].
  rewrite IH. apply orb_true_r.
Qed.

Lemma lstrip_suffix (s : string) : ∃ pre, s = pre +:+ Py.lstrip s.
Proof.
  induction s as [|c s [pre IH]]; [by exists ""|].
  cbn [Py.lstrip]. destruct (Py.isspace c).
  - exists (String c pre). change (String c pre +:+ ?x) with (String c (pre +:+ x)).
    by rewrite <- IH.
  - by exists "".
Qed.

Lemma rstrip_prefix (s : string) : ∃ post, s = Py.rstrip s +:+ post.
Proof.
  induction s as [|c s [post IH]]; [by exists ""|].
  cbn [Py.rstrip]. destruct (Py.rstrip s) as [|d r] eqn:Hr.
  - destruct (Py.isspace c).
    + by exists (String c s).
    + exists s. done.
  - exists post. change (String c (String d r) +:+ post)
      with (String c (String d r +:+ post)). by rewrite <- IH.
Qed.

(** A keyword found in the stripped, lowercased text is found in the
    lowercased text. *)
Lemma contains_lower_strip (k s : string) :
  Py.contains k (Py.lower (Py.strip s)) = true →
  Py.contains k (Py.lower s) = true.
Proof.
  intros H. unfold Py.strip in H.
  destruct (lstrip_suffix s) as [pre Hpre].
  destruct (rstrip_prefix (Py.lstrip s)) as [post Hpost].
  rewrite Hpre, Hpost, !lower_app.
  by apply contains_app_l, contains_app_r.
Qed.

End substrings.

(** ** The robots policy *)

Section robots.
Import RequestManager.
Context (E : Env) (self : RequestManager.t).

Lemma fetch_robots_unfold (url : string) (w : World E) :
  fetch_robots E self url w =
  match urljoin E url "/robots.txt" with
  | Raise _ => (Return None, w)
  | Return target =>
      match session_get E target (user_agent self) w with
      | (Raise _, w1) => (Return None, w1)
      | (Return response, w1) =>
          if (status_code response =? 200)%Z then
            match Protego_parse E (text response) with
            | Return robots => (Return (Some robots), w1)
            | Raise _ => (Return None, w1)
            end
          else (Return None, w1)
      end
  end.
Proof.
  unfold fetch_robots, IO.try_except, IO.bind, IO.lift, IO.ret.
  destruct (urljoin E url "/robots.txt") as [target|e]; [|done].
  destruct (session_get E target (user_agent self) w) as [[response|e] w1]; [|done].
  destruct (status_code response =? 200)%Z; [|done].
  by destruct (Protego_parse E (text response)).
Qed.

Lemma is_allowed_unfold (url : string) (w : World E) :
  Py.truthy url = true →
  is_allowed_by_robots E self url w =
  match fetch_robots E self url w with
  | (Return (Some robots), w1) =>
      (Return (can_fetch E robots url (user_agent self)), w1)
  | (Return None, w1) => (Return true, w1)
  | (Raise e, w1) => (Raise e, w1)
  end.
Proof.
  intros Hurl. unfold is_allowed_by_robots, IO.bind, IO.ret. rewrite Hurl.
  cbn [negb]. by destruct (fetch_robots E self url w) as [[[robots|]|e] w1].
Qed.

(** C8: for a non-empty base URL the robots check never raises; when the
    retrieval of robots.txt fails (the address cannot be formed, the request
    raises, the status is not 200, or the parser raises) the answer is
    [True]; and the answer is [False] only after a 200 response whose body
    was parsed into rules that deny the URL. *)
Theorem robots_fails_open (url : string) (w : World E) :
  Py.truthy url = true →
  (∃ allowed w1, is_allowed_by_robots E self url w = (Return allowed, w1)) ∧
  (∀ e, urljoin E url "/robots.txt" = Raise e →
     is_allowed_by_robots E self url w = (Return true, w)) ∧
  (∀ target e w1,
     urljoin E url "/robots.txt" = Return target →
     session_get E target (user_agent self) w = (Raise e, w1) →
     is_allowed_by_robots E self url w = (Return true, w1)) ∧
  (∀ target response w1,
     urljoin E url "/robots.txt" = Return target →
     session_get E target (user_agent self) w = (Return response, w1) →
     status_code response ≠ 200%Z →
     is_allowed_by_robots E self url w = (Return true, w1)) ∧
  (∀ target response e w1,
     urljoin E url "/robots.txt" = Return target →
     session_get E target (user_agent self) w = (Return response, w1) →
     Protego_parse E (text response) = Raise e →
     is_allowed_by_robots E self url w = (Return true, w1)) ∧
  (∀ w1,
     is_allowed_by_robots E self url w = (Return false, w1) →
     ∃ target response robots,
       urljoin E url "/robots.txt" = Return target ∧
       session_get E target (user_agent self) w = (Return response, w1) ∧
       status_code response = 200%Z ∧
       Protego_parse E (text response) = Return robots ∧
       can_fetch E robots url (user_agent self) = false).
Proof.
  intros Hurl. rewrite (is_allowed_unfold url w Hurl), fetch_robots_unfold.
  repeat split.
  - destruct (urljoin E url "/robots.txt") as [target|e]; [|by eauto].
    destruct (session_get E target (user_agent self) w) as [[response|e] w1];
      [|by eauto].
    destruct (status_code response =? 200)%Z; [|by eauto].
    destruct (Protego_parse E (text response)); by eauto.
  - by intros e ->.
  - by intros target e w1 -> ->.
  - intros target response w1 -> -> Hstatus.
    by apply Z.eqb_neq in Hstatus as ->.
  - intros target response e w1 -> -> ->.
    by destruct (status_code response =? 200)%Z.
  - intros w1.
    destruct (urljoin E url "/robots.txt") as [target|e] eqn:Hjoin; [|done].
    destruct (session_get E target (user_agent self) w) as [[response|e] w2]
      eqn:Hget; [|done].
    destruct (status_code response =? 200)%Z eqn:Hstatus; [|done].
    destruct (Protego_parse E (text response)) as [robots|e] eqn:Hparse; [|done].
    intros [= Hdeny <-]. exists target, response, robots.
    apply Z.eqb_eq in Hstatus. repeat split; assumption || reflexivity.
Qed.

End robots.

Lemma robots_fails_open_witness :
  Py.truthy "https://gone.example" = true ∧
  RequestManager.is_allowed_by_robots (Scenario.static_env Scenario.broken_web)
    (RequestManager.__init__ None) "https://gone.example" []
  = (Return true, ["https://gone.example/robots.txt"]) ∧
  RequestManager.is_allowed_by_robots (Scenario.static_env Scenario.broken_web)
    (RequestManager.__init__ None) "https://blocked.example" []
  = (Return false, ["https://blocked.example/robots.txt"]).
Proof.
  split; [reflexivity|]. split.
  - destruct (robots_fails_open (Scenario.static_env Scenario.broken_web)
                (RequestManager.__init__ None) "https://gone.example" []
                eq_refl) as (_ & _ & Hnet & _).
    eapply Hnet; vm_compute; reflexivity.
  - vm_compute. reflexivity.
Defined.

(** ** Footer links *)

Section footer_links.
Import parameters DataExtractor Footer.

Lemma ofold_app {A S} (f : S → A → outcome S) (l1 l2 : list A) (s : S) :
  ofold f (l1 ++ l2) s = obind (ofold f l1 s) (ofold f l2).
Proof.
  revert s. induction l1 as [|x l1 IH]; intros s; [done|].
  cbn [app ofold]. destruct (f s x); [apply IH|done].
Qed.

(** Two nested loops visit the concatenation of the inner sequences. *)
Lemma ofold_nested {A B S} (f : S → B → outcome S) (g : A → list B)
    (l : list A) (s : S) :
  ofold (λ s x, ofold f (g x) s) l s = ofold f (x ← l; g x) s.
Proof.
  revert s. induction l as [|x l IH]; intros s; [done|].
  rewrite bind_cons, ofold_app. cbn [ofold]. destruct (ofold f (g x) s); [apply IH|done].
Qed.

Context (E : Env).

Lemma visit_link_resolve (base_url : string) (st : footer_state) (link : bs4.node) :
  visit_link E base_url st link =
  obind (resolve E base_url link) (λ entry, Return (foldl step st entry)).
Proof.
  unfold visit_link, resolve.
  destruct (bs4.get "href" link) as [href|]; [|done].
  destruct (Py.truthy href); [|done]. cbn [negb].
  destruct (urljoin E base_url href) as [absolute_url|e]; [|done].
  cbn [obind foldl]. unfold step, names_license, has_keyword. cbn [fst snd].
  destruct (negb (Py.truthy (license_link st))
            && _contains_pattern (Py.strip (bs4.get_text link)) LICENSE_PATTERNS);
    [done|].
  by destruct (_contains_keyword (Py.strip (bs4.get_text link))
                 RELEVANT_LINKS_KEYWORDS).
Qed.

Lemma ofold_visit_resolve (base_url : string) (links : list bs4.node)
    (st : footer_state) :
  ofold (visit_link E base_url) links st =
  obind (resolve_all E base_url links) (λ entries, Return (foldl step st entries)).
Proof.
  revert st. induction links as [|link links IH]; intros st; [done|].
  cbn [ofold resolve_all]. rewrite visit_link_resolve.
  destruct (resolve E base_url link) as [entry|e]; [|done].
  cbn [obind]. rewrite IH.
  destruct (resolve_all E base_url links) as [entries|e]; [|done].
  cbn [obind]. by rewrite foldl_app.
Qed.

(** The extraction, once every address of the footer anchors resolves. *)
Lemma extract_footer_links_resolved (soup : bs4.node) (base_url : string)
    (entries : list (string * string)) :
  Py.truthy base_url = true →
  resolve_all E base_url (anchors soup) = Return entries →
  let st := foldl step {| license_link := ""; license_text := "";
                          relevant_links := ∅ |} entries in
  extract_footer_links E (Some soup) base_url =
  Return (license_link st, license_text st, list_of_set E (relevant_links st)).
Proof.
  intros Hbase Hres st. unfold extract_footer_links. rewrite Hbase. cbn [negb].
  unfold visit_footer.
  rewrite (ofold_nested (visit_link E base_url) (bs4.find_all ["a"])).
  fold (anchors soup). by rewrite ofold_visit_resolve, Hres.
Qed.

Lemma elem_of_keyword_urls (entries : list (string * string)) (x : string) :
  x ∈ keyword_urls entries ↔
  ∃ t, (x, t) ∈ entries ∧ has_keyword (x, t) = true.
Proof.
  induction entries as [|[u t] entries IH]; cbn [keyword_urls].
  - split; [by intros ?%elem_of_empty|]. by intros (t & ?%elem_of_nil & _).
  - rewrite elem_of_union, IH. cbn [fst]. split.
    + intros [Hx|(t' & Hin & Hkey)].
      * destruct (has_keyword (u, t)) eqn:Hkey; [|by apply elem_of_empty in Hx].
        apply elem_of_singleton in Hx as ->. exists t. split; [left|done].
      * exists t'. split; [by right|done].
    + intros (t' & Hin & Hkey). apply elem_of_cons in Hin as [[= -> ->]|Hin].
      * left. rewrite Hkey. by apply elem_of_singleton.
      * right. eauto.
Qed.

(** Once a license link is held, or over entries that name no license, the
    loop only collects keyword links. *)
Lemma foldl_step_collect (entries : list (string * string)) (st : footer_state) :
  Py.truthy (license_link st) = true
  ∨ Forall (λ entry, names_license entry = false) entries →
  license_link (foldl step st entries) = license_link st ∧
  license_text (foldl step st entries) = license_text st ∧
  relevant_links (foldl step st entries) = keyword_urls entries ∪ relevant_links st.
Proof.
  revert st. induction entries as [|entry entries IH]; intros st Hlocked.
  - cbn. repeat split. by rewrite (left_id_L ∅ (∪)).
  - cbn [foldl keyword_urls].
    assert (negb (Py.truthy (license_link st)) && names_license entry = false)
      as Hskip.
    { destruct Hlocked as [->|Hnone]; [done|].
      apply Forall_cons in Hnone as [-> _]. apply andb_false_r. }
    assert (license_link (step st entry) = license_link st ∧
            license_text (step st entry) = license_text st ∧
            relevant_links (step st entry) =
              (if has_keyword entry then {[fst entry]} else ∅) ∪ relevant_links st)
      as (Hl & Ht & Hr).
    { unfold step. rewrite Hskip. destruct (has_keyword entry); cbn;
        repeat split. by rewrite (left_id_L ∅ (∪)). }
    destruct (IH (step st entry)) as (-> & -> & ->).
    { rewrite Hl. destruct Hlocked as [?|Hnone]; [by left|right].
      by apply Forall_cons in Hnone as [_ ?]. }
    repeat split; [done..|]. rewrite Hr, (assoc_L (∪)).
    f_equal. apply (comm_L (∪)).
Qed.

(** A URL enters the relevant links only through an entry whose text
    contains a keyword. *)
Lemma foldl_step_relevant (entries : list (string * string)) (st : footer_state)
    (x : string) :
  x ∈ relevant_links (foldl step st entries) →
  x ∈ relevant_links st ∨ ∃ t, (x, t) ∈ entries ∧ has_keyword (x, t) = true.
Proof.
  revert st. induction entries as [|[u t] entries IH]; intros st Hx; [by left|].
  cbn [foldl] in Hx. apply IH in Hx as [Hx|(t' & Hin & Hkey)].
  - unfold step in Hx.
    destruct (negb (Py.truthy (license_link st)) && names_license (u, t));
      [by left|].
    destruct (has_keyword (u, t)) eqn:Hkey; [|by left].
    cbn in Hx. apply elem_of_union in Hx as [Hx|Hx]; [|by left].
    apply elem_of_singleton in Hx as ->. right. exists t. split; [left|done].
  - right. exists t'. split; [by right|done].
Qed.

(** C4 (as the code has it): among the footer anchors that carry an
    address, in visiting order, the first one whose stripped text names a
    license is captured as the license link with its text, and no later
    anchor replaces it (its resolved URL being non-empty); every other such
    anchor whose text contains a keyword is put in the relevant links, before
    or after the captured one, and nothing else is.  The captured anchor is
    not put there by its own visit. *)
Theorem footer_first_license_wins (soup : bs4.node) (base_url : string)
    (before after : list (string * string)) (url text : string) :
  Py.truthy base_url = true →
  resolve_all E base_url (anchors soup) = Return (before ++ (url, text) :: after) →
  Forall (λ entry, names_license entry = false) before →
  names_license (url, text) = true →
  url ≠ "" →
  ∃ links,
    extract_footer_links E (Some soup) base_url = Return (url, text, links) ∧
    NoDup links ∧
    ∀ x, x ∈ links ↔
         ∃ t, (x, t) ∈ before ++ after ∧ has_keyword (x, t) = true.
Proof.
  intros Hbase Hres Hbefore Hlicense Hurl.
  rewrite (extract_footer_links_resolved soup base_url _ Hbase Hres).
  rewrite foldl_app. cbn [foldl].
  set (st0 := {| license_link := ""; license_text := ""; relevant_links := ∅ |}).
  destruct (foldl_step_collect before st0) as (Hl1 & Ht1 & Hr1); [by right|].
  set (st1 := foldl step st0 before) in *.
  assert (step st1 (url, text) =
          {| license_link := url; license_text := text;
             relevant_links := relevant_links st1 |}) as Hstep.
  { unfold step. by rewrite Hl1, Hlicense. }
  rewrite Hstep.
  destruct (foldl_step_collect after
              {| license_link := url; license_text := text;
                 relevant_links := relevant_links st1 |}) as (-> & -> & ->).
  { left. cbn. by destruct url. }
  cbn [license_link license_text relevant_links].
  eexists. split; [done|]. split; [apply list_of_set_NoDup|].
  intros x. rewrite list_of_set_elem, Hr1, !elem_of_union, !elem_of_keyword_urls.
  split.
  - intros [(t & Hin & Hkey)|[(t & Hin & Hkey)|Hin]];
      [..|by apply elem_of_empty in Hin];
      exists t; (split; [|done]); apply elem_of_app; auto.
  - intros (t & Hin & Hkey). apply elem_of_app in Hin as [Hin|Hin]; eauto.
Qed.

End footer_links.

Lemma footer_first_license_wins_witness :
  ∃ links,
    DataExtractor.extract_footer_links (Scenario.static_env Scenario.empty_web)
      (Some Scenario.links_page) "https://x.org/"
    = Return ("https://x.org/license", "MIT License", links) ∧
    NoDup links ∧
    ∀ x, x ∈ links ↔
         ∃ t, (x, t) ∈ [("https://x.org/about", "About us");
                        ("https://x.org/terms", "Terms")] ++
                       [("https://x.org/gpl", "GNU GPL license");
                        ("https://x.org/privacy", "Privacy policy");
                        ("https://x.org/howto", "How to use this site")]
              ∧ Footer.has_keyword (x, t) = true.
Proof.
  apply (footer_first_license_wins (Scenario.static_env Scenario.empty_web)
           Scenario.links_page "https://x.org/").
  - reflexivity.
  - vm_compute. reflexivity.
  - repeat constructor.
  - vm_compute. reflexivity.
  - discriminate.
Defined.

(** C4 (as stated) fails: the only footer anchor, "MIT License" pointing to
    /license, is captured as the license link; its text contains the keyword
    "license", yet the relevant links stay empty. *)
Lemma license_anchor_not_relevant :
  DataExtractor._contains_keyword "MIT License" parameters.RELEVANT_LINKS_KEYWORDS
    = true ∧
  DataExtractor.extract_footer_links (Scenario.static_env Scenario.mit_web)
    (Some Scenario.mit_page) "https://x.org/"
  = Return ("https://x.org/license", "MIT License", []).
Proof. split; vm_compute; reflexivity. Qed.

(** ** The per-site pipeline *)

Section pipeline.
Import LicenseDetector Batch.
Context (E : Env) (self : LicenseDetector.t).

Lemma fetch_page_unfold (rm : RequestManager.t) (url : string) (w : World E) :
  Py.truthy url = true →
  RequestManager.fetch_page E rm url w =
  match session_get E url (RequestManager.user_agent rm) w with
  | (Raise e, w1) => (Raise e, w1)
  | (Return response, w1) =>
      match raise_for_status url response with
      | Raise e => (Raise e, w1)
      | Return _ => (Return (Some (content response)), w1)
      end
  end.
Proof.
  intros Hurl. unfold RequestManager.fetch_page, IO.bind, IO.lift, IO.ret.
  rewrite Hurl. cbn [negb].
  destruct (session_get E url (RequestManager.user_agent rm) w)
    as [[response|e] w1]; [|done].
  by destruct (raise_for_status url response).
Qed.

(** [_process_website], stage by stage. *)
Lemma process_website_unfold (url : string) (w : World E) :
  _process_website E self url w =
  if negb (_validate_url E url)
  then (Return (<["invalidUrl" := PyBool true]> (initial_result url)), w)
  else
    match RequestManager.is_allowed_by_robots E (request_manager self)
            (_normalize_url E url) w with
    | (Raise e, w1) => (Raise e, w1)
    | (Return false, w1) =>
        (Return (<["blockedByRobotsTxt" := PyBool true]> (initial_result url)), w1)
    | (Return true, w1) =>
        match RequestManager.fetch_page E (request_manager self) url w1 with
        | (Raise e, w2) => (Raise e, w2)
        | (Return body, w2) =>
            if negb (truthy_content body) then (Return (initial_result url), w2)
            else
              match DataExtractor.parse_html E body with
              | Raise e => (Raise e, w2)
              | Return None => (Return (initial_result url), w2)
              | Return (Some soup) =>
                  match DataExtractor.extract_footer_links E (Some soup) url with
                  | Raise e => (Raise e, w2)
                  | Return (link, text, links) =>
                      match DataExtractor.process_relevant_links E
                              (data_extractor self) links w2 with
                      | (Raise e, w3) => (Raise e, w3)
                      | (Return content, w3) =>
                          (Return (full_result url link
                                     (site_label link text content) links content
                                     (LicenseIdentifier.extract_licenses E content)),
                           w3)
                      end
                  end
              end
        end
    end.
Proof.
  unfold _process_website, IO.bind, IO.lift, IO.ret.
  destruct (negb (_validate_url E url)); [done|].
  destruct (RequestManager.is_allowed_by_robots E (request_manager self)
              (_normalize_url E url) w) as [[[]|e] w1]; [|done..].
  cbn [negb].
  destruct (RequestManager.fetch_page E (request_manager self) url w1)
    as [[body|e] w2]; [|done].
  fold (truthy_content body). destruct (negb (truthy_content body)); [done|].
  destruct (DataExtractor.parse_html E body) as [[soup|]|e]; [|done..].
  destruct (DataExtractor.extract_footer_links E (Some soup) url)
    as [[[link text] links]|e]; [|done].
  by destruct (DataExtractor.process_relevant_links E (data_extractor self)
                 links w2) as [[content|e] w3].
Qed.

Lemma process_website_footer_run (url : string) (w : World E)
    (link text : string) (links : list string) (w2 : World E) :
  footer_run E self url w link text links w2 →
  _process_website E self url w =
  match DataExtractor.process_relevant_links E (data_extractor self) links w2 with
  | (Raise e, w3) => (Raise e, w3)
  | (Return content, w3) =>
      (Return (full_result url link (site_label link text content) links content
                 (LicenseIdentifier.extract_licenses E content)), w3)
  end.
Proof.
  intros [w1 body soup Hvalid Hrobots Hfetch Hbody Hparse Hfooter].
  rewrite process_website_unfold, Hvalid, Hrobots, Hfetch. cbn [negb truthy_content].
  by rewrite Hbody, Hparse, Hfooter.
Qed.

Lemma process_website_full_run (url : string) (w : World E)
    (link text : string) (links : list string) (content : string) (w' : World E) :
  full_run E self url w link text links content w' →
  _process_website E self url w =
  (Return (full_result url link (site_label link text content) links content
             (LicenseIdentifier.extract_licenses E content)), w').
Proof.
  intros (w2 & Hfooter & Hcontent).
  by rewrite (process_website_footer_run _ _ _ _ _ _ Hfooter), Hcontent.
Qed.

End pipeline.

(** ** The batch *)

Section batch.
Import LicenseDetector Batch.
Context (E : Env) (self : LicenseDetector.t).

Lemma scan_one_unfold (all_data : list (gmap string pyval)) (url : string)
    (w : World E) :
  scan_one E self all_data url w =
  (Return (all_data ++ [site_result E self url w]),
   (_process_website E self url w).2).
Proof.
  unfold scan_one, site_result, error_result, IO.try_except, IO.bind, IO.ret.
  by destruct (_process_website E self url w) as [[result|e] w1].
Qed.

Lemma scan_loop (sites : list string) (all_data : list (gmap string pyval))
    (w : World E) :
  IO.for_each (scan_one E self) sites all_data w =
  (Return (all_data ++ site_results E self sites w), world_after E self sites w).
Proof.
  revert all_data w. induction sites as [|url sites IH]; intros all_data w.
  - cbn. by rewrite app_nil_r.
  - cbn [IO.for_each site_results world_after]. unfold IO.bind at 1.
    rewrite scan_one_unfold, IH. by rewrite <- app_assoc.
Qed.

Lemma scan_websites_unfold (sites : list string) (w : World E) :
  scan_websites E self sites w =
  (Return (site_results E self sites w), world_after E self sites w).
Proof. destruct sites; [done|]. unfold scan_websites. apply scan_loop. Qed.

Lemma site_results_length (sites : list string) (w : World E) :
  length (site_results E self sites w) = length sites.
Proof.
  revert w. induction sites as [|url sites IH]; intros w; [done|].
  cbn. by rewrite IH.
Qed.

Lemma site_results_lookup (sites : list string) (w : World E) (i : nat)
    (url : string) :
  sites !! i = Some url →
  site_results E self sites w !! i
  = Some (site_result E self url (world_after E self (take i sites) w)).
Proof.
  revert w i. induction sites as [|u sites IH]; intros w [|i] Hi; try done.
  - by injection Hi as ->.
  - cbn in Hi. cbn [site_results take world_after lookup list_lookup]. by apply IH.
Qed.

(** What a returned result looks like. *)
Lemma process_website_result (url : string) (w w' : World E)
    (result : gmap string pyval) :
  _process_website E self url w = (Return result, w') →
  result = <["invalidUrl" := PyBool true]> (initial_result url)
  ∨ result = <["blockedByRobotsTxt" := PyBool true]> (initial_result url)
  ∨ result = initial_result url
  ∨ ∃ link text links content,
      result = full_result url link (site_label link text content) links content
                 (LicenseIdentifier.extract_licenses E content).
Proof.
  rewrite process_website_unfold.
  destruct (negb (_validate_url E url)); [intros [= <- _]; auto|].
  destruct (RequestManager.is_allowed_by_robots E (request_manager self)
              (_normalize_url E url) w) as [[[]|e] w1]; [|intros [= <- _]; auto|done].
  destruct (RequestManager.fetch_page E (request_manager self) url w1)
    as [[body|e] w2]; [|done].
  destruct (negb (truthy_content body)); [intros [= <- _]; auto|].
  destruct (DataExtractor.parse_html E body) as [[soup|]|e];
    [|intros [= <- _]; auto|done].
  destruct (DataExtractor.extract_footer_links E (Some soup) url)
    as [[[link text] links]|e]; [|done].
  destruct (DataExtractor.process_relevant_links E (data_extractor self) links w2)
    as [[content|e] w3]; [|done].
  intros [= <- _]. do 3 right. by exists link, text, links, content.
Qed.

Lemma full_result_lookup (url link type_ : string) (links : list string)
    (content : string) (mentions : list string) :
  let result := full_result url link type_ links content mentions in
  result !! "website" = Some (PyStr url) ∧
  result !! "error" = None ∧
  result !! "licenseType" = Some (PyStr type_) ∧
  result !! "licenseLink" = Some (PyStr link) ∧
  result !! "content" = Some (PyStr content).
Proof. by vm_compute. Qed.

Lemma short_result_lookup (url : string) (key : string) (flag : bool) :
  key = "invalidUrl" ∨ key = "blockedByRobotsTxt" →
  let result := <[key := PyBool flag]> (initial_result url) in
  result !! "website" = Some (PyStr url) ∧
  result !! "error" = None ∧
  result !! "licenseType" = Some PyNone ∧
  result !! "licenseLink" = Some PyNone ∧
  result !! "content" = Some PyNone.
Proof. intros [-> | ->]; by vm_compute. Qed.

Lemma initial_result_lookup (url : string) :
  initial_result url !! "website" = Some (PyStr url) ∧
  initial_result url !! "error" = None ∧
  initial_result url !! "licenseType" = Some PyNone ∧
  initial_result url !! "licenseLink" = Some PyNone ∧
  initial_result url !! "content" = Some PyNone.
Proof. by vm_compute. Qed.

(** A result returned by [_process_website] names its site and has no
    [error] key. *)
Lemma process_website_no_error (url : string) (w w' : World E)
    (result : gmap string pyval) :
  _process_website E self url w = (Return result, w') →
  result !! "website" = Some (PyStr url) ∧ result !! "error" = None.
Proof.
  intros [->|[->|[->|(link & text & links & content & ->)]]]%process_website_result.
  - by destruct (short_result_lookup url "invalidUrl" true) as (? & ? & _); [left|].
  - by destruct (short_result_lookup url "blockedByRobotsTxt" true)
      as (? & ? & _); [right|].
  - by destruct (initial_result_lookup url) as (? & ? & _).
  - by destruct (full_result_lookup url link (site_label link text content)
                   links content (LicenseIdentifier.extract_licenses E content))
      as (? & ? & _).
Qed.

(** C6: the batch scan never raises and returns one result per input, in
    input order: the result at position [i] is the dict [_process_website]
    returned for the [i]-th site (in the world left by the sites before it),
    which has no [error] key, or, when that call raised, the two-key dict
    with the site's string and the error message.  So a result carries
    [error] exactly when its own site raised. *)
Theorem scan_websites_one_result_per_site (sites : list string) (w : World E) :
  ∃ results,
    scan_websites E self sites w = (Return results, world_after E self sites w) ∧
    length results = length sites ∧
    ∀ i url, sites !! i = Some url →
      ∃ r, results !! i = Some r ∧
           r !! "website" = Some (PyStr url) ∧
           (is_Some (r !! "error") ↔
            raised (_process_website E self url
                      (world_after E self (take i sites) w)).1 = true) ∧
           match _process_website E self url
                   (world_after E self (take i sites) w) with
           | (Return result, _) => r = result ∧ r !! "error" = None
           | (Raise e, _) =>
               r = error_result url e ∧ r !! "error" = Some (PyStr (str_exn e))
           end.
Proof.
  exists (site_results E self sites w). split; [apply scan_websites_unfold|].
  split; [apply site_results_length|].
  intros i url Hi. eexists. split; [by apply site_results_lookup|].
  unfold site_result.
  destruct (_process_website E self url (world_after E self (take i sites) w))
    as [[result|e] w1] eqn:Hrun.
  - destruct (process_website_no_error _ _ _ _ Hrun) as [Hsite Herror].
    rewrite Herror. repeat split; [done|by intros []|done].
  - repeat split; [by eexists|..]; by vm_compute.
Qed.

End batch.

Lemma scan_websites_one_result_per_site_witness :
  ∃ r0 r1 r2,
    LicenseDetector.scan_websites (Scenario.static_env Scenario.broken_web)
      Scenario.detector
      ["https://x.org/"; "https://gone.example/"; "https://empty.example/"] []
    = (Return [r0; r1; r2],
       ["https://x.org/robots.txt"; "https://x.org/";
        "https://gone.example/robots.txt"; "https://gone.example/";
        "https://empty.example/robots.txt"; "https://empty.example/"]) ∧
    r0 !! "error" = None ∧
    r1 !! "website" = Some (PyStr "https://gone.example/") ∧
    is_Some (r1 !! "error") ∧
    r2 !! "error" = None.
Proof.
  destruct (scan_websites_one_result_per_site
              (Scenario.static_env Scenario.broken_web) Scenario.detector
              ["https://x.org/"; "https://gone.example/"; "https://empty.example/"]
              []) as (results & Hscan & Hlen & Heach).
  destruct results as [|r0 [|r1 [|r2 [|]]]]; try discriminate Hlen.
  exists r0, r1, r2. split; [exact Hscan|].
  destruct (Heach 0 "https://x.org/" eq_refl) as (? & [= <-] & _ & [H0 _] & _).
  destruct (Heach 1 "https://gone.example/" eq_refl)
    as (? & [= <-] & Hsite & [_ H1] & _).
  destruct (Heach 2 "https://empty.example/" eq_refl)
    as (? & [= <-] & _ & [H2 _] & _).
  repeat split.
  - destruct (r0 !! "error") as [v|]; [|reflexivity].
    specialize (H0 (mk_is_Some _ v eq_refl)). vm_compute in H0. discriminate H0.
  - exact Hsite.
  - apply H1. vm_compute. reflexivity.
  - destruct (r2 !! "error") as [v|]; [|reflexivity].
    specialize (H2 (mk_is_Some _ v eq_refl)). vm_compute in H2. discriminate H2.
Defined.

(** ** Loops over the network *)

Lemma for_each_app {W A S} (body : S → A → IO.M W S) (l1 l2 : list A) (s : S)
    (w : W) :
  IO.for_each body (l1 ++ l2) s w
  = IO.bind (IO.for_each body l1 s) (IO.for_each body l2) w.
Proof.
  revert s w. induction l1 as [|x l1 IH]; intros s w.
  - reflexivity.
  - cbn [app IO.for_each]. unfold IO.bind.
    destruct (body s x w) as [[s'|e] w1]; [|reflexivity].
    rewrite IH. reflexivity.
Qed.

(** ** Fetch failures *)

Section failures.
Import LicenseDetector Batch.
Context (E : Env) (self : LicenseDetector.t).

Lemma validate_url_truthy (url : string) :
  _validate_url E url = true → Py.truthy url = true.
Proof. unfold _validate_url. by destruct (Py.truthy url). Qed.

Lemma raise_for_status_error (url : string) (response : Response) :
  (400 ≤ status_code response < 600)%Z →
  ∃ e, raise_for_status url response = Raise e.
Proof.
  intros [Hlo Hhi]. unfold raise_for_status.
  apply Z.leb_le in Hlo as ->. cbn [andb].
  destruct (status_code response <? 500)%Z eqn:H4; [by eauto|].
  apply Z.ltb_ge, Z.leb_le in H4 as ->. apply Z.ltb_lt in Hhi as ->. by eauto.
Qed.

Lemma scan_single (url : string) (w : World E) :
  scan_websites E self [url] w =
  (Return [site_result E self url w], (_process_website E self url w).2).
Proof. by rewrite scan_websites_unfold. Qed.

(** C2 (what the code does): for a valid site that robots.txt allows, a
    primary request that raises, or that is answered with a 4xx or 5xx
    status, makes [fetch_page] raise; [_process_website] lets the exception
    through and the batch records the two-key error dict for the site.  Only
    a response that passes [raise_for_status] with an empty body gives the
    result with its defaults and no [error] key. *)
Theorem primary_fetch_failure_is_error (url : string) (w w1 w2 : World E) :
  _validate_url E url = true →
  RequestManager.is_allowed_by_robots E (request_manager self)
    (_normalize_url E url) w = (Return true, w1) →
  (∀ e,
     session_get E url (RequestManager.user_agent (request_manager self)) w1
       = (Raise e, w2) →
     scan_websites E self [url] w = (Return [error_result url e], w2)) ∧
  (∀ response,
     session_get E url (RequestManager.user_agent (request_manager self)) w1
       = (Return response, w2) →
     (400 ≤ status_code response < 600)%Z →
     ∃ e, raise_for_status url response = Raise e ∧
          scan_websites E self [url] w = (Return [error_result url e], w2)) ∧
  (∀ response,
     session_get E url (RequestManager.user_agent (request_manager self)) w1
       = (Return response, w2) →
     raise_for_status url response = Return () →
     content response = "" →
     scan_websites E self [url] w = (Return [initial_result url], w2)).
Proof.
  intros Hvalid Hrobots. pose proof (validate_url_truthy url Hvalid) as Hurl.
  repeat split.
  - intros e Hget. rewrite scan_single. unfold site_result.
    rewrite process_website_unfold, Hvalid, Hrobots. cbn [negb].
    by rewrite (fetch_page_unfold E _ _ _ Hurl), Hget.
  - intros response Hget Hstatus.
    destruct (raise_for_status_error url response Hstatus) as [e He].
    exists e. split; [done|]. rewrite scan_single. unfold site_result.
    rewrite process_website_unfold, Hvalid, Hrobots. cbn [negb].
    by rewrite (fetch_page_unfold E _ _ _ Hurl), Hget, He.
  - intros response Hget Hok Hempty. rewrite scan_single. unfold site_result.
    rewrite process_website_unfold, Hvalid, Hrobots. cbn [negb].
    by rewrite (fetch_page_unfold E _ _ _ Hurl), Hget, Hok, Hempty.
Qed.

(** A link whose fetch raises ends the aggregation with that exception. *)
Lemma process_relevant_links_raises (de : DataExtractor.t)
    (rm : RequestManager.t) (before after : list string) (link : string)
    (texts : list string) (w w1 w2 : World E) (e : exn) :
  DataExtractor.request_manager de = Some rm →
  IO.for_each (DataExtractor.visit_relevant E rm) before [] w = (Return texts, w1) →
  RequestManager.fetch_page E rm link w1 = (Raise e, w2) →
  DataExtractor.process_relevant_links E de (before ++ link :: after) w
  = (Raise e, w2).
Proof.
  intros Hrm Hbefore Hfail. unfold DataExtractor.process_relevant_links.
  rewrite Hrm.
  assert (IO.bind (IO.for_each (DataExtractor.visit_relevant E rm)
                     (before ++ link :: after) [])
            (λ combined_content, IO.ret (Py.join " " combined_content)) w
          = (Raise e, w2)) as Hloop.
  { unfold IO.bind at 1. rewrite for_each_app. unfold IO.bind at 1.
    rewrite Hbefore.
    cbn [IO.for_each]. unfold IO.bind at 1.
    unfold DataExtractor.visit_relevant at 1. unfold IO.bind at 1.
    by rewrite Hfail. }
  by destruct before.
Qed.

(** C3 (what the code does): when the fetch of one relevant link raises,
    after the links before it were aggregated, the exception is not caught
    in [process_relevant_links]: it leaves [_process_website] and the batch
    records the two-key error dict for the whole site. *)
Theorem relevant_link_failure_escalates (url : string) (w w2 w3 w4 : World E)
    (license_link license_text : string) (before after : list string)
    (link : string) (texts : list string) (rm : RequestManager.t) (e : exn) :
  footer_run E self url w license_link license_text (before ++ link :: after) w2 →
  DataExtractor.request_manager (data_extractor self) = Some rm →
  IO.for_each (DataExtractor.visit_relevant E rm) before [] w2 = (Return texts, w3) →
  RequestManager.fetch_page E rm link w3 = (Raise e, w4) →
  DataExtractor.process_relevant_links E (data_extractor self)
    (before ++ link :: after) w2 = (Raise e, w4) ∧
  _process_website E self url w = (Raise e, w4) ∧
  scan_websites E self [url] w = (Return [error_result url e], w4).
Proof.
  intros Hfooter Hrm Hbefore Hfail.
  pose proof (process_relevant_links_raises (data_extractor self) rm before after
                link texts w2 w3 w4 e Hrm Hbefore Hfail) as Hlinks.
  assert (_process_website E self url w = (Raise e, w4)) as Hrun.
  { by rewrite (process_website_footer_run E self _ _ _ _ _ _ Hfooter), Hlinks. }
  repeat split; [done..|].
  rewrite scan_single. unfold site_result. by rewrite Hrun.
Qed.

End failures.

Lemma primary_fetch_failure_is_error_witness :
  ∃ e,
    raise_for_status "https://gone.example/"
      {| status_code := 404; reason := "Not Found"; content := "" |} = Raise e ∧
    LicenseDetector.scan_websites (Scenario.static_env Scenario.broken_web)
      Scenario.detector ["https://gone.example/"] []
    = (Return [Batch.error_result "https://gone.example/" e],
       ["https://gone.example/robots.txt"; "https://gone.example/"]).
Proof.
  destruct (primary_fetch_failure_is_error
              (Scenario.static_env Scenario.broken_web) Scenario.detector
              "https://gone.example/" [] ["https://gone.example/robots.txt"]
              ["https://gone.example/robots.txt"; "https://gone.example/"])
    as (_ & Hstatus & _).
  - reflexivity.
  - vm_compute. reflexivity.
  - apply Hstatus.
    + vm_compute. reflexivity.
    + cbn. lia.
Defined.

(** The same site, evaluated: it answers 404 and the batch result is the
    error dict, not the result with its defaults. *)
Lemma primary_fetch_404_scan :
  LicenseDetector.scan_websites (Scenario.static_env Scenario.broken_web)
    Scenario.detector ["https://gone.example/"] []
  = (Return [list_to_map
               [("website", PyStr "https://gone.example/");
                ("error", PyStr "404 Client Error: Not Found for url: https://gone.example/")]],
     ["https://gone.example/robots.txt"; "https://gone.example/"]).
Proof. vm_compute. reflexivity. Qed.

Lemma relevant_link_failure_escalates_witness :
  LicenseDetector.scan_websites (Scenario.static_env Scenario.broken_web)
    Scenario.detector ["https://broken.example/"] []
  = (Return [Batch.error_result "https://broken.example/"
               (Exception "HTTPError"
                  "404 Client Error: Not Found for url: https://broken.example/terms")],
     ["https://broken.example/robots.txt"; "https://broken.example/";
      "https://broken.example/legal"; "https://broken.example/terms"]).
Proof.
  eapply (relevant_link_failure_escalates
            (Scenario.static_env Scenario.broken_web) Scenario.detector
            "https://broken.example/" []
            ["https://broken.example/robots.txt"; "https://broken.example/"]
            ["https://broken.example/robots.txt"; "https://broken.example/";
             "https://broken.example/legal"]
            ["https://broken.example/robots.txt"; "https://broken.example/";
             "https://broken.example/legal"; "https://broken.example/terms"]
            "" "" ["https://broken.example/legal"] []
            "https://broken.example/terms" ["All rights reserved"]
            (RequestManager.__init__ None)).
  - apply (Batch.FooterRun (Scenario.static_env Scenario.broken_web)
             Scenario.detector _ _ _ _ _ _
             ["https://broken.example/robots.txt"] "<broken_page>"
             Scenario.broken_page); vm_compute; reflexivity.
  - reflexivity.
  - vm_compute. reflexivity.
  - vm_compute. reflexivity.
Defined.

(** ** Classification labels *)

Section labels.
Import parameters UrlScan LicenseIdentifier LicenseDetector Batch.

Lemma determine_cc0 (url text : string) :
  cc0_indicator url text = true → determine_cc_license url text = "CC0".
Proof.
  intros Hcc0. unfold determine_cc_license. rewrite !truthy_lower.
  unfold _check_for_cc0. unfold cc0_indicator in Hcc0. rewrite Hcc0.
  destruct url as [|c url]; [|done]. by destruct text as [|d text].
Qed.

Lemma check_for_cc0_Some (url_lower text_lower label : string) :
  _check_for_cc0 url_lower text_lower = Some label → label = "CC0".
Proof. unfold _check_for_cc0. destruct (_ || _ || _); naive_solver. Qed.

Lemma first_match_Some (combinations : list (string * string))
    (url_lower found : string) :
  first_match combinations url_lower = Some found →
  ∃ rest, found = "CC-" +:+ rest.
Proof.
  unfold first_match. destruct (List.find _ _) as [[version cc_type]|]; [|done].
  intros [= <-]. exists (cc_type +:+ "-" +:+ version). reflexivity.
Qed.

Lemma extract_license_from_text_Some (text_lower found : string) :
  _extract_license_from_text text_lower = Some found →
  ∃ rest, found = "CC-" +:+ rest.
Proof.
  unfold _extract_license_from_text.
  change (pattern_of "Creative Commons (CC)" LICENSE_PATTERNS)
    with (Some CC_pattern). cbv beta iota.
  destruct (Re.search CC_pattern text_lower) as [m|]; [|done].
  destruct (negb (Py.truthy _)); [done|]. intros [= <-]. by eexists.
Qed.

Lemma determine_is_label (url text : string) :
  is_label (determine_cc_license url text).
Proof.
  unfold determine_cc_license, is_label.
  destruct (negb (Py.truthy url) && negb (Py.truthy text)); [by left|].
  destruct (_check_for_cc0 _ _) as [cc0_result|] eqn:Hcc0.
  { right; left. by apply check_for_cc0_Some in Hcc0. }
  destruct (_extract_license_from_url _) as [specific_license|] eqn:Hurl.
  { right; right. unfold _extract_license_from_url in Hurl.
    rewrite scan_versions_first_match in Hurl. by apply first_match_Some in Hurl. }
  destruct (_extract_license_from_text _) as [extracted_license|] eqn:Htext.
  { right; right. by apply extract_license_from_text_Some in Htext. }
  by left.
Qed.

Lemma site_label_is_label (link text content : string) :
  is_label (site_label link text content).
Proof. unfold site_label. case_bool_decide; apply determine_is_label. Qed.

(** C1 (as the code has it): within one call of [determine_cc_license] a
    CC0 indicator in its URL or its text gives "CC0" whatever else matches.
    For a site that runs the full pipeline, the license type is "CC0" when
    the footer link or its text carries an indicator, and when the footer
    classification is "Unknown" and the aggregated content carries one; a
    footer classification other than "Unknown" is kept whatever the content
    says. *)
Theorem cc0_precedence_per_signal :
  (∀ url text,
     cc0_indicator url text = true → determine_cc_license url text = "CC0") ∧
  (∀ (E : Env) (self : LicenseDetector.t) url w link text links content w',
     full_run E self url w link text links content w' →
     ∃ result type_,
       _process_website E self url w = (Return result, w') ∧
       result !! "licenseType" = Some (PyStr type_) ∧
       (cc0_indicator link text = true → type_ = "CC0") ∧
       (determine_cc_license link text = "Unknown" →
        cc0_indicator "" content = true → type_ = "CC0") ∧
       (determine_cc_license link text ≠ "Unknown" →
        type_ = determine_cc_license link text)).
Proof.
  split; [apply determine_cc0|].
  intros E self url w link text links content w' Hrun.
  eexists _, (site_label link text content).
  split; [by apply process_website_full_run|].
  split; [apply full_result_lookup|]. unfold site_label. repeat split.
  - intros Hcc0. rewrite (determine_cc0 link text Hcc0). by case_bool_decide.
  - intros Hunknown Hcc0. rewrite bool_decide_eq_true_2 by done.
    by apply determine_cc0.
  - intros Hknown. by rewrite bool_decide_eq_false_2.
Qed.

End labels.

Lemma cc0_precedence_per_signal_witness :
  ∃ result,
    LicenseDetector._process_website (Scenario.static_env Scenario.cc0_web)
      Scenario.detector "https://zero.example/" []
    = (Return result,
       ["https://zero.example/robots.txt"; "https://zero.example/";
        "https://zero.example/terms"]) ∧
    result !! "licenseType" = Some (PyStr "CC0").
Proof.
  destruct cc0_precedence_per_signal as [_ Hsite].
  destruct (Hsite (Scenario.static_env Scenario.cc0_web) Scenario.detector
              "https://zero.example/" [] "" "" ["https://zero.example/terms"]
              "Photos are licensed under CC0 and Creative Commons Attribution 4.0"
              ["https://zero.example/robots.txt"; "https://zero.example/";
               "https://zero.example/terms"])
    as (result & type_ & Hrun & Htype & _ & Hcontent & _).
  - exists ["https://zero.example/robots.txt"; "https://zero.example/"]. split.
    + apply (Batch.FooterRun (Scenario.static_env Scenario.cc0_web)
               Scenario.detector _ _ _ _ _ _
               ["https://zero.example/robots.txt"] "<cc0_page>"
               Scenario.cc0_page); vm_compute; reflexivity.
    + vm_compute. reflexivity.
  - exists result. split; [exact Hrun|].
    rewrite Htype, Hcontent; reflexivity.
Defined.

(** C1 (as stated) fails: the aggregated content of the site carries the
    CC0 indicator "cc0", and the license type is the one read off the
    footer link, "CC-BY-4.0". *)
Lemma cc0_in_content_does_not_override :
  ∃ result,
    (LicenseDetector._process_website (Scenario.static_env Scenario.cc_web)
       Scenario.detector "https://cc.example/" []).1 = Return result ∧
    result !! "licenseLink"
      = Some (PyStr "https://creativecommons.org/licenses/by/4.0/") ∧
    result !! "content"
      = Some (PyStr "Photos are licensed under CC0. Text is under copyright") ∧
    Py.contains "cc0"
      (Py.lower "Photos are licensed under CC0. Text is under copyright") = true ∧
    result !! "licenseType" = Some (PyStr "CC-BY-4.0").
Proof. eexists. repeat split; vm_compute; reflexivity. Qed.

(** ** The license type of a result *)

Section license_type.
Import LicenseDetector Batch.
Context (E : Env) (self : LicenseDetector.t).

Lemma elem_of_site_results (sites : list string) (w : World E)
    (r : gmap string pyval) :
  r ∈ site_results E self sites w →
  ∃ url w0, r = site_result E self url w0.
Proof.
  revert w. induction sites as [|url sites IH]; intros w Hr.
  - by apply elem_of_nil in Hr.
  - cbn [site_results] in Hr. apply elem_of_cons in Hr as [->|Hr]; eauto.
Qed.

(** C9 (as the code has it): in every result of the batch that has no
    [error] key the license type is either [None], together with a [None]
    license link and content (the early returns), or a string that is
    "Unknown", "CC0" or starts with "CC-" (the full pipeline).  An invalid
    URL, a site robots.txt blocks and an empty front page give [None]; a
    full run gives a label. *)
Theorem license_type_none_or_label :
  (∀ sites w results w' r,
     scan_websites E self sites w = (Return results, w') →
     r ∈ results →
     r !! "error" = None →
     (r !! "licenseType" = Some PyNone ∧
      r !! "licenseLink" = Some PyNone ∧ r !! "content" = Some PyNone)
     ∨ (∃ label, r !! "licenseType" = Some (PyStr label) ∧ is_label label)) ∧
  (∀ url w,
     _validate_url E url = false →
     ∃ r, _process_website E self url w = (Return r, w) ∧
          r !! "invalidUrl" = Some (PyBool true) ∧
          r !! "licenseType" = Some PyNone) ∧
  (∀ url w w1,
     _validate_url E url = true →
     RequestManager.is_allowed_by_robots E (request_manager self)
       (_normalize_url E url) w = (Return false, w1) →
     ∃ r, _process_website E self url w = (Return r, w1) ∧
          r !! "blockedByRobotsTxt" = Some (PyBool true) ∧
          r !! "licenseType" = Some PyNone) ∧
  (∀ url w w1 w2 body,
     _validate_url E url = true →
     RequestManager.is_allowed_by_robots E (request_manager self)
       (_normalize_url E url) w = (Return true, w1) →
     RequestManager.fetch_page E (request_manager self) url w1
       = (Return body, w2) →
     truthy_content body = false →
     ∃ r, _process_website E self url w = (Return r, w2) ∧
          r !! "licenseType" = Some PyNone) ∧
  (∀ url w link text links content w',
     full_run E self url w link text links content w' →
     ∃ r label, _process_website E self url w = (Return r, w') ∧
                r !! "licenseType" = Some (PyStr label) ∧ is_label label).
Proof.
  repeat split.
  - intros sites w results w' r Hscan Hr Herror.
    rewrite scan_websites_unfold in Hscan. injection Hscan as <- <-.
    apply elem_of_site_results in Hr as (url & w0 & ->).
    unfold site_result in *.
    destruct (_process_website E self url w0) as [[result|e] w1] eqn:Hrun;
      [|by vm_compute in Herror].
    apply process_website_result in Hrun
      as [->|[->|[->|(link & text & links & content & ->)]]].
    + left. by vm_compute.
    + left. by vm_compute.
    + left. by vm_compute.
    + right. exists (site_label link text content).
      split; [apply full_result_lookup|apply site_label_is_label].
  - intros url w Hvalid.
    exists (<["invalidUrl" := PyBool true]> (initial_result url)).
    rewrite process_website_unfold, Hvalid. cbn [negb].
    split; [reflexivity|]. split; vm_compute; reflexivity.
  - intros url w w1 Hvalid Hrobots.
    exists (<["blockedByRobotsTxt" := PyBool true]> (initial_result url)).
    rewrite process_website_unfold, Hvalid, Hrobots. cbn [negb].
    split; [reflexivity|]. split; vm_compute; reflexivity.
  - intros url w w1 w2 body Hvalid Hrobots Hfetch Hbody.
    exists (initial_result url).
    rewrite process_website_unfold, Hvalid, Hrobots. cbn [negb].
    rewrite Hfetch, Hbody. cbn [negb].
    split; [reflexivity|]. vm_compute; reflexivity.
  - intros url w link text links content w' Hrun.
    eexists _, (site_label link text content).
    split; [by apply process_website_full_run|].
    split; [apply full_result_lookup|apply site_label_is_label].
Qed.

End license_type.

Lemma license_type_none_or_label_witness :
  ∃ label,
    (default ∅ (head (Batch.site_results (Scenario.static_env Scenario.mit_web)
                        Scenario.detector ["https://x.org/"] [])))
      !! "licenseType" = Some (PyStr label) ∧
    Batch.is_label label.
Proof.
  destruct (license_type_none_or_label (Scenario.static_env Scenario.mit_web)
              Scenario.detector) as (Hbatch & _).
  destruct (Hbatch ["https://x.org/"] []
              (Batch.site_results (Scenario.static_env Scenario.mit_web)
                 Scenario.detector ["https://x.org/"] [])
              ["https://x.org/robots.txt"; "https://x.org/"]
              (default ∅ (head (Batch.site_results
                                  (Scenario.static_env Scenario.mit_web)
                                  Scenario.detector ["https://x.org/"] []))))
    as [(Hnone & _)|Hlabel].
  - vm_compute. reflexivity.
  - apply list_elem_of_here.
  - vm_compute. reflexivity.
  - vm_compute in Hnone. discriminate Hnone.
  - exact Hlabel.
Defined.

(** C9 (as stated) fails: the result for the input "not a url" has no
    [error] key, and its license type is [None], not a string. *)
Lemma invalid_url_license_type_is_None :
  ∃ r,
    LicenseDetector.scan_websites (Scenario.static_env Scenario.empty_web)
      Scenario.detector ["not a url"] [] = (Return [r], []) ∧
    r !! "error" = None ∧
    r !! "invalidUrl" = Some (PyBool true) ∧
    r !! "licenseType" = Some PyNone.
Proof. eexists. repeat split; vm_compute; reflexivity. Qed.

(** ** The relevant-link keywords *)

Section keywords.
Import parameters DataExtractor Footer.

Lemma existsb_contains_false (keywords : list string) (text_lower : string) :
  Forall (λ keyword, Py.lower keyword = keyword) keywords →
  Forall (λ keyword, Py.contains keyword text_lower = false) keywords →
  existsb (λ keyword, Py.contains (Py.lower keyword) text_lower) keywords = false.
Proof.
  induction 1 as [|keyword keywords Hlow _ IH]; intros Hnone; [done|].
  apply Forall_cons in Hnone as [Hk Hrest]. cbn [existsb].
  by rewrite Hlow, Hk, IH.
Qed.

Lemma keywords_lowercase :
  Forall (λ keyword, Py.lower keyword = keyword) RELEVANT_LINKS_KEYWORDS.
Proof. repeat constructor. Qed.

(** A text in which no keyword occurs fails the keyword test, stripped or
    not. *)
Lemma contains_keyword_false (text : string) :
  Forall (λ keyword, Py.contains keyword (Py.lower text) = false)
         RELEVANT_LINKS_KEYWORDS →
  _contains_keyword text RELEVANT_LINKS_KEYWORDS = false ∧
  _contains_keyword (Py.strip text) RELEVANT_LINKS_KEYWORDS = false.
Proof.
  intros Hnone. unfold _contains_keyword. split.
  - destruct (negb (Py.truthy text) || _); [done|].
    by apply existsb_contains_false; [apply keywords_lowercase|].
  - destruct (negb (Py.truthy (Py.strip text)) || _); [done|].
    apply existsb_contains_false; [apply keywords_lowercase|].
    eapply Forall_impl; [exact Hnone|]. cbn. intros keyword Hk.
    destruct (Py.contains keyword (Py.lower (Py.strip text))) eqn:Hs; [|done].
    by rewrite (contains_lower_strip _ _ Hs) in Hk.
Qed.

(** C10: the keyword list holds the fused "licensinguse" and neither
    "licensing" nor "use"; so "How to use this site" and "Licensing" fail the
    keyword test, and visiting a footer anchor whose text contains none of
    the six list entries (whatever else it contains) leaves the relevant
    links as they were. *)
Theorem fused_keyword_licensinguse :
  RELEVANT_LINKS_KEYWORDS
    = ["terms"; "legal"; "license"; "licensinguse"; "policy"; "copyright"] ∧
  ("licensing" ∉ RELEVANT_LINKS_KEYWORDS) ∧
  ("use" ∉ RELEVANT_LINKS_KEYWORDS) ∧
  _contains_keyword "How to use this site" RELEVANT_LINKS_KEYWORDS = false ∧
  _contains_keyword "Licensing" RELEVANT_LINKS_KEYWORDS = false ∧
  (∀ (E : Env) base_url st link st',
     Forall (λ keyword,
               Py.contains keyword (Py.lower (bs4.get_text link)) = false)
            RELEVANT_LINKS_KEYWORDS →
     visit_link E base_url st link = Return st' →
     relevant_links st' = relevant_links st) ∧
  (∀ (E : Env) soup base_url entries license_link license_text links x,
     Py.truthy base_url = true →
     resolve_all E base_url (anchors soup) = Return entries →
     extract_footer_links E (Some soup) base_url
       = Return (license_link, license_text, links) →
     x ∈ links →
     ∃ t keyword, (x, t) ∈ entries ∧ keyword ∈ RELEVANT_LINKS_KEYWORDS ∧
                  Py.contains keyword (Py.lower t) = true).
Proof.
  split; [reflexivity|].
  split; [apply (bool_decide_unpack _); vm_compute; exact I|].
  split; [apply (bool_decide_unpack _); vm_compute; exact I|].
  split; [reflexivity|]. split; [reflexivity|]. split.
  - intros E base_url st link st' Hnone.
    apply contains_keyword_false in Hnone as [_ Hstripped].
    unfold visit_link.
    destruct (bs4.get "href" link) as [href|]; [|by intros [= <-]].
    destruct (negb (Py.truthy href)); [by intros [= <-]|].
    destruct (urljoin E base_url href) as [absolute_url|e]; [|done].
    cbn [obind]. rewrite Hstripped.
    destruct (negb (Py.truthy (license_link st)) && _); by intros [= <-].
  - intros E soup base_url entries ll lt links x Hbase Hres Hextract Hx.
    rewrite (extract_footer_links_resolved E soup base_url _ Hbase Hres) in Hextract.
    injection Hextract as _ _ <-. apply list_of_set_elem in Hx.
    apply foldl_step_relevant in Hx as [Hx|(t & Hin & Hkey)];
      [by apply elem_of_empty in Hx|].
    exists t. unfold has_keyword, _contains_keyword in Hkey. cbn [snd] in Hkey.
    destruct (negb (Py.truthy t) || _); [done|].
    apply existsb_exists in Hkey as (keyword & Hk & Hcontains).
    apply list_elem_of_In in Hk.
    pose proof keywords_lowercase as Hlow. rewrite Forall_forall in Hlow.
    rewrite (Hlow keyword Hk) in Hcontains. by exists keyword.
Qed.

End keywords.

Lemma fused_keyword_licensinguse_witness :
  Py.contains "use" (Py.lower "How to use this site") = true ∧
  ∀ st st',
    DataExtractor.visit_link (Scenario.static_env Scenario.empty_web)
      "https://x.org/" st (Scenario.a "/howto" "How to use this site")
    = Return st' →
    DataExtractor.relevant_links st' = DataExtractor.relevant_links st.
Proof.
  split; [reflexivity|].
  destruct fused_keyword_licensinguse as (_ & _ & _ & _ & _ & Hvisit & _).
  intros st st'. apply Hvisit. repeat constructor.
Defined.

(** * Further properties of the pipeline *)

(** ** Letter case *)

Section letter_case.
Import parameters.

Lemma lower_char_idem (c : ascii) : Py.lower_char (Py.lower_char c) = Py.lower_char c.
Proof. by destruct c as [[] [] [] [] [] [] [] []]. Qed.




Lemma lower_idem (s : string) : Py.lower (Py.lower s) = Py.lower s.
Proof. induction s as [|c s IH]; [done|]. cbn. by rewrite lower_char_idem, IH. Qed.


Lemma truthy_lower_eq (s : string) : Py.truthy (Py.lower s) = Py.truthy s.
Proof. by destruct s. Qed.






End letter_case.

(** ** Mentions and the license test *)

Section mentions.
Import parameters LicenseIdentifier DataExtractor.




Lemma elem_of_matching_names (table : list (string * Re.regex)) (text : string)
    (licenses : gset string) (name : string) :
  name ∈ matching_names table text licenses ↔
  name ∈ licenses ∨ ∃ pattern, (name, pattern) ∈ table
                               ∧ is_Some (Re.search pattern text).
Proof.
  revert licenses. induction table as [|[n p] table IH]; intros licenses;
    cbn [matching_names].
  - split; [by left|]. intros [?|(p & []%elem_of_nil & _)]. done.
  - rewrite IH. split.
    + intros [Hin|(q & Hin & Hq)].
      * destruct (Re.search p text) as [m|] eqn:Hp; [|by left].
        apply elem_of_union in Hin as [->%elem_of_singleton|Hin]; [|by left].
        right. exists p. split; [left|]. by rewrite Hp.
      * right. exists q. split; [by right|done].
    + intros [Hin|(q & Hin & Hq)].
      * left. destruct (Re.search p text); [|done].
        apply elem_of_union. by right.
      * apply elem_of_cons in Hin as [[= -> ->]|Hin].
        -- left. destruct Hq as [m ->]. apply elem_of_union. left.
           by apply elem_of_singleton.
        -- right. eauto.
Qed.

Lemma elem_of_extract_licenses (E : Env) (text name : string) :
  name ∈ extract_licenses E text ↔
  text ≠ "" ∧ ∃ pattern, (name, pattern) ∈ LICENSE_PATTERNS
                         ∧ is_Some (Re.search pattern text).
Proof.
  unfold extract_licenses. destruct text as [|c text].
  - cbn. split; [by intros ?%elem_of_nil|by intros [? _]].
  - cbn [Py.truthy negb]. rewrite list_of_set_elem, elem_of_matching_names.
    split.
    + intros [[]%elem_of_empty|H]. by split.
    + intros [_ H]. by right.
Qed.

(** X1: the mentions have no duplicates, and a name is mentioned exactly
    when the text is non-empty and the pattern registered under that name is
    found in it; so only the five family names can appear. *)
Theorem extract_licenses_members (E : Env) (text : string) :
  NoDup (extract_licenses E text) ∧
  (∀ name, name ∈ extract_licenses E text ↔
           text ≠ "" ∧ ∃ pattern, (name, pattern) ∈ LICENSE_PATTERNS
                                  ∧ is_Some (Re.search pattern text)) ∧
  (∀ name, name ∈ extract_licenses E text →
           name ∈ ["MIT License"; "Apache License"; "Creative Commons (CC)";
                   "GNU GPL"; "BSD License"]).
Proof.
  split; [|split; [apply elem_of_extract_licenses|]].
  - unfold extract_licenses. destruct (negb (Py.truthy text)).
    + constructor.
    + apply list_of_set_NoDup.
  - intros name (_ & pattern & Hin & _)%elem_of_extract_licenses.
    unfold LICENSE_PATTERNS in Hin.
    repeat (apply elem_of_cons in Hin as [[= -> _]|Hin];
            [repeat ((by left) || right)|]).
    by apply elem_of_nil in Hin.
Qed.



(** X4: the classifier does not depend on letter case, in the URL or in
    the text. *)
Theorem determine_cc_license_case_insensitive (url text : string) :
  determine_cc_license (Py.lower url) (Py.lower text)
  = determine_cc_license url text.
Proof.
  unfold determine_cc_license.
  by rewrite !truthy_lower, !lower_idem, !truthy_lower_eq.
Qed.

End mentions.

(** ** The words of a matched Creative Commons text *)

Section cc_words.
Import parameters LicenseIdentifier.

Lemma map_word_alphabet (word token : string) :
  token ∈ map_word word →
  token ∈ ["BY"; "NC"; "SA"; "ND"] ++ CC_VERSIONS.
Proof.
  unfold map_word. destruct (CC_TYPE_MAP !! word) as [abbreviation|] eqn:Hmap.
  - intros ->%list_elem_of_singleton.
    apply elem_of_list_to_map_2 in Hmap.
    repeat (apply elem_of_cons in Hmap as [[= _ ->]|Hmap];
            [apply (bool_decide_unpack _); vm_compute; exact I|]).
    by apply elem_of_nil in Hmap.
  - case_bool_decide as Hversion; [|by intros ?%elem_of_nil].
    intros ->%list_elem_of_singleton. apply elem_of_app. by right.
Qed.

(** X5: whatever text it is given, [_process_cc_type_text] builds its
    result from the four abbreviations BY, NC, SA, ND and the five version
    numbers only, joined by hyphens; every other word is dropped. *)
Theorem process_cc_type_text_alphabet (type_str : string) :
  ∃ tokens,
    _process_cc_type_text type_str = Py.join "-" tokens ∧
    Forall (λ token, token ∈ ["BY"; "NC"; "SA"; "ND"] ++ CC_VERSIONS) tokens.
Proof.
  unfold _process_cc_type_text. destruct (negb (Py.truthy type_str)).
  - exists []. by split.
  - eexists. split; [reflexivity|].
    apply Forall_forall. intros token Hin.
    apply list_elem_of_In, in_concat in Hin as (l & Hl & Hin).
    apply in_map_iff in Hl as (word & <- & _).
    by apply list_elem_of_In, map_word_alphabet in Hin.
Qed.

Lemma contains_hyphen_cons (c : ascii) (s : string) :
  Py.contains "-" (String c s)
  = (if ascii_dec "-" c then true else false) || Py.contains "-" s.
Proof. cbn [Py.contains Py.startswith]. by destruct (ascii_dec "-" c). Qed.

Lemma contains_hyphen_rev_app (a b : string) :
  Py.contains "-" (String.rev_app a b) = Py.contains "-" a || Py.contains "-" b.
Proof.
  revert b. induction a as [|c a IH]; intros b; [done|].
  cbn [String.rev_app]. rewrite IH, !contains_hyphen_cons.
  destruct (ascii_dec "-" c); cbn; [by rewrite orb_true_r|done].
Qed.

Lemma split_go_no_hyphen (cur : option string) (s : string) :
  Py.contains "-" (default "" cur) = false →
  Py.contains "-" s = false →
  Forall (λ word, Py.contains "-" word = false) (Py.split_go cur s).
Proof.
  revert cur. induction s as [|c s IH]; intros cur Hcur Hs; cbn [Py.split_go].
  - destruct cur as [cur|]; cbn; [|constructor].
    repeat constructor. unfold String.rev.
    rewrite contains_hyphen_rev_app. cbn in Hcur. by rewrite Hcur.
  - rewrite contains_hyphen_cons in Hs. apply orb_false_iff in Hs as [Hc Hs].
    destruct (Py.isspace c).
    + apply Forall_app. split; [|by apply IH].
      destruct cur as [cur|]; cbn; [|constructor].
      repeat constructor. unfold String.rev.
      rewrite contains_hyphen_rev_app. cbn in Hcur. by rewrite Hcur.
    + apply IH; [|done].
      change (Py.contains "-" (String c (default "" cur)) = false).
      rewrite contains_hyphen_cons, Hc. by destruct cur.
Qed.

Lemma replace_hyphen_no_hyphen (s : string) :
  Py.contains "-" (Py.replace_char "-" " " s) = false.
Proof.
  induction s as [|c s IH]; [done|]. cbn [Py.replace_char].
  rewrite contains_hyphen_cons, IH.
  destruct (ascii_dec c "-") as [->|Hc]; [done|].
  by destruct (ascii_dec "-" c) as [<-|].
Qed.

(** X6: the words [_process_cc_type_text] looks up never contain a
    hyphen, because hyphens are turned into spaces before the text is split;
    so the hyphenated keys of [CC_TYPE_MAP] ("non-commercial", "share-alike",
    "no-derivatives") are never the word looked up. *)
Theorem process_cc_type_text_words_no_hyphen (type_str : string) :
  Forall (λ word,
            Py.contains "-" word = false ∧
            word ≠ "non-commercial" ∧ word ≠ "share-alike" ∧
            word ≠ "no-derivatives")
         (Py.split (Py.replace_char "-" " " (Py.lower type_str))).
Proof.
  eapply Forall_impl.
  - apply (split_go_no_hyphen None); [done|apply replace_hyphen_no_hyphen].
  - intros word Hword. cbn beta.
    split; [done|]. repeat split; intros ->; by vm_compute in Hword.
Qed.

End cc_words.

(** ** More on footer links *)

Section footer_more.
Import parameters DataExtractor Footer.
Context (E : Env).

Lemma list_of_set_empty : list_of_set E ∅ = [].
Proof.
  apply Permutation_nil_r. rewrite (list_of_set_perm E ∅). by rewrite elements_empty.
Qed.

Lemma resolve_all_no_href (base_url : string) (links : list bs4.node) :
  Forall (λ link, bs4.get "href" link = None ∨ bs4.get "href" link = Some "")
         links →
  resolve_all E base_url links = Return [].
Proof.
  induction 1 as [|link links Hlink _ IH]; [done|].
  cbn [resolve_all]. unfold resolve. destruct Hlink as [-> | ->]; cbn; by rewrite IH.
Qed.

(** X7: with no document, with an empty base URL, with no [footer]
    element in the document, or when no footer anchor carries an address,
    the extraction returns the empty triple: anchors outside a footer and
    anchors without [href] are never read. *)
Theorem extract_footer_links_nothing_to_read :
  (∀ base_url, extract_footer_links E None base_url = Return ("", "", [])) ∧
  (∀ soup, extract_footer_links E soup "" = Return ("", "", [])) ∧
  (∀ soup base_url,
     bs4.find_all ["footer"] soup = [] →
     extract_footer_links E (Some soup) base_url = Return ("", "", [])) ∧
  (∀ soup base_url,
     Forall (λ link, bs4.get "href" link = None ∨ bs4.get "href" link = Some "")
            (anchors soup) →
     extract_footer_links E (Some soup) base_url = Return ("", "", [])).
Proof.
  split; [done|]. split; [by intros [soup|]|].
  assert (∀ soup base_url,
            Forall (λ link, bs4.get "href" link = None
                            ∨ bs4.get "href" link = Some "") (anchors soup) →
            extract_footer_links E (Some soup) base_url = Return ("", "", []))
    as Hnone.
  { intros soup base_url Hlinks. destruct (Py.truthy base_url) eqn:Hbase.
    - rewrite (extract_footer_links_resolved E soup base_url [] Hbase)
        by by apply resolve_all_no_href.
      cbn. by rewrite list_of_set_empty.
    - unfold extract_footer_links. by rewrite Hbase. }
  split; [|exact Hnone].
  intros soup base_url Hfooters. apply Hnone. unfold anchors.
  rewrite Hfooters. constructor.
Qed.

(** X8: when no footer anchor names a license, the license link and its
    text are the empty string, and the relevant links are exactly the
    resolved addresses of the anchors whose text contains a keyword. *)
Theorem footer_without_license_link (soup : bs4.node) (base_url : string)
    (entries : list (string * string)) :
  Py.truthy base_url = true →
  resolve_all E base_url (anchors soup) = Return entries →
  Forall (λ entry, names_license entry = false) entries →
  ∃ links,
    extract_footer_links E (Some soup) base_url = Return ("", "", links) ∧
    NoDup links ∧
    ∀ x, x ∈ links ↔ ∃ t, (x, t) ∈ entries ∧ has_keyword (x, t) = true.
Proof.
  intros Hbase Hres Hnone.
  rewrite (extract_footer_links_resolved E soup base_url _ Hbase Hres).
  destruct (foldl_step_collect entries
              {| license_link := ""; license_text := ""; relevant_links := ∅ |})
    as (-> & -> & ->); [by right|].
  cbn [license_link license_text relevant_links].
  eexists. split; [done|]. split; [apply list_of_set_NoDup|].
  intros x. rewrite list_of_set_elem, elem_of_union, elem_of_keyword_urls.
  split; [intros [?|[]%elem_of_empty]; done|by left].
Qed.

Lemma foldl_step_license (entries : list (string * string)) (st : footer_state) :
  (license_link (foldl step st entries) = license_link st ∧
   license_text (foldl step st entries) = license_text st)
  ∨ ((license_link (foldl step st entries),
      license_text (foldl step st entries)) ∈ entries ∧
     names_license (license_link (foldl step st entries),
                    license_text (foldl step st entries)) = true).
Proof.
  revert st. induction entries as [|[u t] entries IH]; intros st; [by left|].
  cbn [foldl]. destruct (IH (step st (u, t))) as [[-> ->]|[Hin Hname]].
  - unfold step.
    destruct (negb (Py.truthy (license_link st)) && names_license (u, t))
      eqn:Hcapture.
    + right. cbn. apply andb_true_iff in Hcapture as [_ Hname].
      split; [left|done].
    + left. by destruct (has_keyword (u, t)).
  - right. split; [by right|done].
Qed.

(** X9: whatever the footer holds, the license link that is returned is
    either empty (with an empty text) or the resolved address of a footer
    anchor, returned with that anchor's stripped text, which names a
    license. *)
Theorem license_link_provenance (soup : bs4.node) (base_url : string)
    (link text : string) (links : list string) :
  Py.truthy base_url = true →
  extract_footer_links E (Some soup) base_url = Return (link, text, links) →
  ∃ entries,
    resolve_all E base_url (anchors soup) = Return entries ∧
    ((link = "" ∧ text = "")
     ∨ ((link, text) ∈ entries ∧ names_license (link, text) = true)).
Proof.
  intros Hbase Hextract.
  destruct (resolve_all E base_url (anchors soup)) as [entries|e] eqn:Hres.
  - exists entries. split; [done|].
    rewrite (extract_footer_links_resolved E soup base_url _ Hbase Hres) in Hextract.
    injection Hextract as <- <- _.
    destruct (foldl_step_license entries
                {| license_link := ""; license_text := ""; relevant_links := ∅ |})
      as [[-> ->]|?]; [by left|by right].
  - exfalso. unfold extract_footer_links in Hextract.
    rewrite Hbase in Hextract. cbn [negb] in Hextract.
    unfold visit_footer in Hextract.
    rewrite (ofold_nested (visit_link E base_url) (bs4.find_all ["a"])) in Hextract.
    fold (anchors soup) in Hextract.
    by rewrite ofold_visit_resolve, Hres in Hextract.
Qed.

(** X10: when the address of a footer anchor cannot be resolved
    ([urljoin] raises), the extraction raises that exception, and a site
    whose front page holds such an anchor ends as an error record of the
    batch. *)
Theorem unresolvable_link_raises (self : LicenseDetector.t) (url : string)
    (w w1 w2 : World E) (body : string) (soup : bs4.node) (e : exn) :
  LicenseDetector._validate_url E url = true →
  RequestManager.is_allowed_by_robots E (LicenseDetector.request_manager self)
    (LicenseDetector._normalize_url E url) w = (Return true, w1) →
  RequestManager.fetch_page E (LicenseDetector.request_manager self) url w1
    = (Return (Some body), w2) →
  Py.truthy body = true →
  parse_html E (Some body) = Return (Some soup) →
  resolve_all E url (anchors soup) = Raise e →
  extract_footer_links E (Some soup) url = Raise e ∧
  LicenseDetector.scan_websites E self [url] w
    = (Return [Batch.error_result url e], w2).
Proof.
  intros Hvalid Hrobots Hfetch Hbody Hparse Hres.
  assert (extract_footer_links E (Some soup) url = Raise e) as Hextract.
  { unfold extract_footer_links.
    rewrite (validate_url_truthy E url Hvalid). cbn [negb]. unfold visit_footer.
    rewrite (ofold_nested (visit_link E url) (bs4.find_all ["a"])).
    fold (anchors soup). by rewrite ofold_visit_resolve, Hres. }
  split; [done|]. rewrite scan_single. unfold Batch.site_result.
  rewrite process_website_unfold, Hvalid, Hrobots, Hfetch.
  cbn [negb Batch.truthy_content]. by rewrite Hbody, Hparse, Hextract.
Qed.

End footer_more.

Lemma extract_footer_links_nothing_to_read_witness :
  bs4.find_all ["footer"] Hazard.bare_page = [] ∧
  DataExtractor.extract_footer_links (Scenario.static_env Scenario.empty_web)
    (Some Hazard.bare_page) "https://x.org/" = Return ("", "", []).
Proof.
  split; [reflexivity|].
  destruct (extract_footer_links_nothing_to_read
              (Scenario.static_env Scenario.empty_web)) as (_ & _ & Hfooters & _).
  apply Hfooters. reflexivity.
Defined.

Lemma footer_without_license_link_witness :
  ∃ links,
    DataExtractor.extract_footer_links (Scenario.static_env Scenario.empty_web)
      (Some Scenario.broken_page) "https://broken.example/"
    = Return ("", "", links) ∧
    NoDup links ∧
    ∀ x, x ∈ links ↔
         ∃ t, (x, t) ∈ [("https://broken.example/terms", "Terms");
                        ("https://broken.example/legal", "Legal notice")]
              ∧ Footer.has_keyword (x, t) = true.
Proof.
  apply (footer_without_license_link (Scenario.static_env Scenario.empty_web)
           Scenario.broken_page "https://broken.example/").
  - reflexivity.
  - vm_compute. reflexivity.
  - repeat constructor.
Defined.

Lemma license_link_provenance_witness :
  ∃ entries,
    Footer.resolve_all (Scenario.static_env Scenario.empty_web) "https://x.org/"
      (Footer.anchors Scenario.links_page) = Return entries ∧
    (("https://x.org/license" = "" ∧ "MIT License" = "")
     ∨ (("https://x.org/license", "MIT License") ∈ entries ∧
        Footer.names_license ("https://x.org/license", "MIT License") = true)).
Proof.
  apply (license_link_provenance (Scenario.static_env Scenario.empty_web)
           Scenario.links_page "https://x.org/" "https://x.org/license"
           "MIT License"
           ["https://x.org/gpl"; "https://x.org/terms"; "https://x.org/privacy"]).
  - reflexivity.
  - vm_compute. reflexivity.
Defined.

Lemma unresolvable_link_raises_witness :
  DataExtractor.extract_footer_links (Hazard.strict_env Hazard.odd_web)
    (Some Hazard.odd_page) "https://odd.example/"
  = Raise (Exception "ValueError" "Invalid IPv6 URL") ∧
  LicenseDetector.scan_websites (Hazard.strict_env Hazard.odd_web)
    Scenario.detector ["https://odd.example/"] []
  = (Return [Batch.error_result "https://odd.example/"
               (Exception "ValueError" "Invalid IPv6 URL")],
     ["https://odd.example/robots.txt"; "https://odd.example/"]).
Proof.
  apply (unresolvable_link_raises (Hazard.strict_env Hazard.odd_web)
           Scenario.detector "https://odd.example/" []
           ["https://odd.example/robots.txt"]
           ["https://odd.example/robots.txt"; "https://odd.example/"]
           "<odd_page>" Hazard.odd_page);
    vm_compute; reflexivity.
Defined.

(** ** Relevant text *)

Section relevant_text.
Import parameters DataExtractor.

Lemma rev_app_app (a b t : string) :
  String.rev_app a b +:+ t = String.rev_app a (b +:+ t).
Proof. revert b. induction a as [|c a IH]; intros b; [done|]. apply IH. Qed.

Lemma split_go_nonempty (cur s : string) : split_go cur s ≠ [].
Proof.
  revert cur. induction s as [|c s IH]; intros cur; cbn [split_go]; [done|].
  destruct (_ && _); [done|apply IH].
Qed.

Lemma join_cons (sep x : string) (l : list string) :
  l ≠ [] → Py.join sep (x :: l) = x +:+ sep +:+ Py.join sep l.
Proof. by destruct l. Qed.

Lemma join_split_go (cur s : string) :
  Py.join "." (split_go cur s) = String.rev_app cur s.
Proof.
  revert cur. induction s as [|c s IH]; intros cur; cbn [split_go]; [done|].
  destruct (bool_decide (c = "."%char) && _) eqn:Hcut.
  - apply andb_true_iff in Hcut as [->%bool_decide_eq_true _].
    rewrite join_cons by apply split_go_nonempty. rewrite IH.
    unfold String.rev. by rewrite rev_app_app.
  - apply IH.
Qed.

(** X11: cutting a text at its sentence periods loses nothing but those
    periods: joining the pieces with "." gives the text back. *)
Theorem split_sentences_join (text : string) :
  Py.join "." (split_sentences text) = text.
Proof. unfold split_sentences. by rewrite join_split_go. Qed.

Lemma contains_keyword_true (text : string) (keywords : list string) :
  _contains_keyword text keywords = true ↔
  text ≠ "" ∧ ∃ keyword, keyword ∈ keywords
                         ∧ Py.contains (Py.lower keyword) (Py.lower text) = true.
Proof.
  unfold _contains_keyword. destruct text as [|c text].
  - cbn. split; [done|by intros [? _]].
  - cbn [Py.truthy negb orb]. case_bool_decide as Hkeywords.
    + rewrite Hkeywords. split; [done|]. by intros (_ & k & []%elem_of_nil & _).
    + rewrite existsb_exists. split.
      * intros (k & Hin & Hk). split; [done|]. exists k.
        by rewrite list_elem_of_In.
      * intros (_ & k & Hin & Hk). exists k. by rewrite <- list_elem_of_In.
Qed.


(** X13: the keyword test does not depend on the letter case of the
    text, and a text that passes keeps passing when text is added before
    or after it. *)
Theorem contains_keyword_case_and_context (text : string)
    (keywords : list string) :
  _contains_keyword (Py.lower text) keywords = _contains_keyword text keywords ∧
  (∀ before after,
     _contains_keyword text keywords = true →
     _contains_keyword (before +:+ text +:+ after) keywords = true).
Proof.
  split.
  - unfold _contains_keyword. by rewrite truthy_lower_eq, lower_idem.
  - intros before after (Hne & k & Hk & Hc)%contains_keyword_true.
    apply contains_keyword_true. split.
    + destruct before; [|done]. by destruct text.
    + exists k. split; [done|]. rewrite !lower_app.
      by apply contains_app_l, contains_app_r.
Qed.

End relevant_text.


Lemma contains_keyword_case_and_context_witness :
  DataExtractor._contains_keyword "Terms" parameters.RELEVANT_LINKS_KEYWORDS = true ∧
  DataExtractor._contains_keyword ("Our " +:+ "Terms" +:+ " of use")
    parameters.RELEVANT_LINKS_KEYWORDS = true.
Proof.
  split; [reflexivity|].
  apply (contains_keyword_case_and_context "Terms"
           parameters.RELEVANT_LINKS_KEYWORDS).
  reflexivity.
Defined.

(** ** Aggregation of the relevant links *)

Section aggregation.
Import DataExtractor.
Context (E : Env).




End aggregation.


(** ** Requests *)

Section requests.
Import RequestManager.
Context (E : Env) (self : RequestManager.t).

(** X15: [fetch_page] makes no request for an empty URL and returns
    [None]; for any other URL it never returns [None]: it hands back the
    body when the request is answered with a status outside 400..599, and
    raises when the request raises or the status is in 400..599. *)
Theorem fetch_page_body_or_raise :
  (∀ w, fetch_page E self "" w = (Return None, w)) ∧
  (∀ url w,
     Py.truthy url = true →
     (∀ w', fetch_page E self url w ≠ (Return None, w')) ∧
     (∀ e w1,
        session_get E url (user_agent self) w = (Raise e, w1) →
        fetch_page E self url w = (Raise e, w1)) ∧
     (∀ response w1,
        session_get E url (user_agent self) w = (Return response, w1) →
        (status_code response < 400 ∨ 600 ≤ status_code response)%Z →
        fetch_page E self url w = (Return (Some (content response)), w1)) ∧
     (∀ response w1,
        session_get E url (user_agent self) w = (Return response, w1) →
        (400 ≤ status_code response < 600)%Z →
        ∃ e, fetch_page E self url w = (Raise e, w1))).
Proof.
  split; [done|]. intros url w Hurl. rewrite (fetch_page_unfold E self url w Hurl).
  repeat split.
  - intros w'.
    destruct (session_get E url (user_agent self) w) as [[response|e] w1]; [|done].
    by destruct (raise_for_status url response).
  - by intros e w1 ->.
  - intros response w1 -> Hstatus. unfold raise_for_status.
    destruct (400 <=? status_code response)%Z eqn:H4; cbn [andb].
    + destruct (status_code response <? 500)%Z eqn:H5; [lia|].
      destruct (500 <=? status_code response)%Z eqn:H6; [|done]. cbn [andb].
      destruct (status_code response <? 600)%Z eqn:H7; [lia|done].
    + destruct (500 <=? status_code response)%Z eqn:H6; [lia|done].
  - intros response w1 -> Hstatus.
    destruct (raise_for_status_error url response Hstatus) as [e ->]. by exists e.
Qed.

(** X16: for an empty base URL the robots check answers [False] without
    any request; when robots.txt is answered with status 200 and parsed,
    the answer is the verdict of the parsed rules for this URL and this
    user agent. *)
Theorem robots_verdict :
  (∀ w, is_allowed_by_robots E self "" w = (Return false, w)) ∧
  (∀ url w target response robots w1,
     Py.truthy url = true →
     urljoin E url "/robots.txt" = Return target →
     session_get E target (user_agent self) w = (Return response, w1) →
     status_code response = 200%Z →
     Protego_parse E (text response) = Return robots →
     is_allowed_by_robots E self url w
     = (Return (can_fetch E robots url (user_agent self)), w1)).
Proof.
  split; [done|].
  intros url w target response robots w1 Hurl Hjoin Hget Hstatus Hparse.
  rewrite (is_allowed_unfold E self url w Hurl), fetch_robots_unfold.
  by rewrite Hjoin, Hget, Hstatus, Hparse.
Qed.

End requests.

Lemma fetch_page_body_or_raise_witness :
  RequestManager.fetch_page (Scenario.static_env Scenario.broken_web)
    (RequestManager.__init__ None) "https://broken.example/legal" []
  = (Return (Some "<legal_page>"), ["https://broken.example/legal"]).
Proof.
  destruct (fetch_page_body_or_raise (Scenario.static_env Scenario.broken_web)
              (RequestManager.__init__ None)) as [_ Hfetch].
  destruct (Hfetch "https://broken.example/legal" [] eq_refl)
    as (_ & _ & Hbody & _).
  apply (Hbody {| status_code := 200; reason := "OK"; content := "<legal_page>" |}).
  - vm_compute. reflexivity.
  - cbn. lia.
Defined.

Lemma robots_verdict_witness :
  RequestManager.is_allowed_by_robots (Scenario.static_env Scenario.broken_web)
    (RequestManager.__init__ None) "https://blocked.example" []
  = (Return false, ["https://blocked.example/robots.txt"]).
Proof.
  destruct (robots_verdict (Scenario.static_env Scenario.broken_web)
              (RequestManager.__init__ None)) as [_ Hverdict].
  apply (Hverdict "https://blocked.example" []
           "https://blocked.example/robots.txt"
           {| status_code := 200; reason := "OK"; content := Scenario.deny_all |}
           Scenario.deny_all);
    vm_compute; reflexivity.
Defined.

(** ** The shape of the results *)

Lemma initial_result_dom (url : string) :
  dom (LicenseDetector.initial_result url)
  = list_to_set ["website"; "invalidUrl"; "blockedByRobotsTxt";
                 "licenseLink"; "licenseType"; "relevantLinks";
                 "licenseMentions"; "content"].
Proof. unfold LicenseDetector.initial_result. by rewrite dom_list_to_map_L. Qed.

Lemma insert_known_key_dom (m : gmap string pyval) (keys : list string)
    (key : string) (v : pyval) :
  dom m = list_to_set keys → key ∈ keys → dom (<[key := v]> m) = list_to_set keys.
Proof.
  intros Hdom Hkey. rewrite dom_insert_L, Hdom.
  apply subseteq_union_1_L, singleton_subseteq_l. by apply elem_of_list_to_set.
Qed.

Lemma full_result_dom (url link type_ : string) (links : list string)
    (content : string) (mentions : list string) :
  dom (Batch.full_result url link type_ links content mentions)
  = list_to_set ["website"; "invalidUrl"; "blockedByRobotsTxt";
                 "licenseLink"; "licenseType"; "relevantLinks";
                 "licenseMentions"; "content"].
Proof.
  unfold Batch.full_result.
  do 5 (apply insert_known_key_dom;
        [|apply (bool_decide_unpack _); vm_compute; exact I]).
  apply initial_result_dom.
Qed.

Lemma error_result_dom (url : string) (e : exn) :
  dom (Batch.error_result url e) = list_to_set ["website"; "error"].
Proof. unfold Batch.error_result. by rewrite dom_list_to_map_L. Qed.

Section result_shape.
Import parameters LicenseDetector Batch.
Context (E : Env) (self : LicenseDetector.t).

Lemma extract_footer_links_NoDup (soup : option bs4.node) (base_url : string)
    (link text : string) (links : list string) :
  DataExtractor.extract_footer_links E soup base_url = Return (link, text, links) →
  NoDup links.
Proof.
  unfold DataExtractor.extract_footer_links.
  destruct soup as [soup|]; [|intros [= _ _ <-]; constructor].
  destruct (negb (Py.truthy base_url)); [intros [= _ _ <-]; constructor|].
  destruct (ofold _ _ _) as [st|e]; [|done].
  intros [= _ _ <-]. apply list_of_set_NoDup.
Qed.

(** A returned result, with where its links come from. *)
Lemma process_website_result_links (url : string) (w w' : World E)
    (result : gmap string pyval) :
  _process_website E self url w = (Return result, w') →
  result = <["invalidUrl" := PyBool true]> (initial_result url)
  ∨ result = <["blockedByRobotsTxt" := PyBool true]> (initial_result url)
  ∨ result = initial_result url
  ∨ ∃ link text links content,
      NoDup links ∧
      result = full_result url link (site_label link text content) links content
                 (LicenseIdentifier.extract_licenses E content).
Proof.
  rewrite process_website_unfold.
  destruct (negb (_validate_url E url)); [intros [= <- _]; auto|].
  destruct (RequestManager.is_allowed_by_robots E (request_manager self)
              (_normalize_url E url) w) as [[[]|e] w1]; [|intros [= <- _]; auto|done].
  destruct (RequestManager.fetch_page E (request_manager self) url w1)
    as [[body|e] w2]; [|done].
  destruct (negb (truthy_content body)); [intros [= <- _]; auto|].
  destruct (DataExtractor.parse_html E body) as [[soup|]|e];
    [|intros [= <- _]; auto|done].
  destruct (DataExtractor.extract_footer_links E (Some soup) url)
    as [[[link text] links]|e] eqn:Hfooter; [|done].
  destruct (DataExtractor.process_relevant_links E (data_extractor self) links w2)
    as [[content|e] w3]; [|done].
  intros [= <- _]. do 3 right. exists link, text, links, content.
  split; [by eapply extract_footer_links_NoDup|done].
Qed.

Lemma result_of_batch (sites : list string) (w w' : World E)
    (results : list (gmap string pyval)) (r : gmap string pyval) :
  scan_websites E self sites w = (Return results, w') →
  r ∈ results →
  (∃ url e, r = error_result url e)
  ∨ (∃ url w0 w1, _process_website E self url w0 = (Return r, w1)).
Proof.
  rewrite scan_websites_unfold. intros [= <- _] Hr.
  apply elem_of_site_results in Hr as (url & w0 & ->). unfold site_result.
  destruct (_process_website E self url w0) as [[result|e] w1] eqn:Hrun.
  - right. by exists url, w0, w1.
  - left. by exists url, e.
Qed.

Lemma full_result_fields (url link type_ : string) (links : list string)
    (content : string) (mentions : list string) :
  let result := full_result url link type_ links content mentions in
  result !! "invalidUrl" = Some (PyBool false) ∧
  result !! "blockedByRobotsTxt" = Some (PyBool false) ∧
  result !! "relevantLinks" = Some (PyList links) ∧
  result !! "licenseMentions" = Some (PyList mentions).
Proof. by vm_compute. Qed.

(** X17: every result of the batch has one of two key sets: the eight
    keys of a site result, without [error], or exactly [website] and
    [error]. *)
Theorem result_keys (sites : list string) (w w' : World E)
    (results : list (gmap string pyval)) (r : gmap string pyval) :
  scan_websites E self sites w = (Return results, w') →
  r ∈ results →
  (r !! "error" = None ∧
   dom r = list_to_set ["website"; "invalidUrl"; "blockedByRobotsTxt";
                        "licenseLink"; "licenseType"; "relevantLinks";
                        "licenseMentions"; "content"])
  ∨ (is_Some (r !! "error") ∧ dom r = list_to_set ["website"; "error"]).
Proof.
  intros Hscan Hr.
  destruct (result_of_batch _ _ _ _ _ Hscan Hr)
    as [(url & e & ->)|(url & w0 & w1 & Hrun)].
  - right. split; [by eexists|apply error_result_dom].
  - left. apply process_website_result in Hrun
      as [->|[->|[->|(link & text & links & content & ->)]]].
    + split; [by vm_compute|].
      apply insert_known_key_dom; [apply initial_result_dom|].
      apply (bool_decide_unpack _); vm_compute; exact I.
    + split; [by vm_compute|].
      apply insert_known_key_dom; [apply initial_result_dom|].
      apply (bool_decide_unpack _); vm_compute; exact I.
    + split; [by vm_compute|apply initial_result_dom].
    + split; [apply full_result_lookup|apply full_result_dom].
Qed.

(** X18: in a result without [error] the two flags are booleans that are
    never both true, and when one of them is true the site was not read:
    license link, license type and content are [None], relevant links and
    license mentions are empty lists. *)
Theorem result_flags (sites : list string) (w w' : World E)
    (results : list (gmap string pyval)) (r : gmap string pyval) :
  scan_websites E self sites w = (Return results, w') →
  r ∈ results →
  r !! "error" = None →
  ∃ invalid blocked,
    r !! "invalidUrl" = Some (PyBool invalid) ∧
    r !! "blockedByRobotsTxt" = Some (PyBool blocked) ∧
    invalid && blocked = false ∧
    (invalid || blocked = true →
     r !! "licenseLink" = Some PyNone ∧ r !! "licenseType" = Some PyNone ∧
     r !! "content" = Some PyNone ∧ r !! "relevantLinks" = Some (PyList []) ∧
     r !! "licenseMentions" = Some (PyList [])).
Proof.
  intros Hscan Hr Herror.
  destruct (result_of_batch _ _ _ _ _ Hscan Hr)
    as [(url & e & ->)|(url & w0 & w1 & Hrun)]; [by vm_compute in Herror|].
  apply process_website_result in Hrun
    as [->|[->|[->|(link & text & links & content & ->)]]].
  - exists true, false. by vm_compute.
  - exists false, true. by vm_compute.
  - exists false, false. repeat split; by vm_compute.
  - exists false, false.
    destruct (full_result_fields url link (site_label link text content) links
                content (LicenseIdentifier.extract_licenses E content))
      as (Hi & Hb & _).
    repeat split; done.
Qed.

(** X19: in a result without [error] the relevant links and the license
    mentions are lists without duplicates, and the mentions are among the
    five family names. *)
Theorem result_lists_no_duplicates (sites : list string) (w w' : World E)
    (results : list (gmap string pyval)) (r : gmap string pyval) :
  scan_websites E self sites w = (Return results, w') →
  r ∈ results →
  r !! "error" = None →
  ∃ links mentions,
    r !! "relevantLinks" = Some (PyList links) ∧ NoDup links ∧
    r !! "licenseMentions" = Some (PyList mentions) ∧ NoDup mentions ∧
    mentions ⊆ ["MIT License"; "Apache License"; "Creative Commons (CC)";
                "GNU GPL"; "BSD License"].
Proof.
  intros Hscan Hr Herror.
  destruct (result_of_batch _ _ _ _ _ Hscan Hr)
    as [(url & e & ->)|(url & w0 & w1 & Hrun)]; [by vm_compute in Herror|].
  apply process_website_result_links in Hrun
    as [->|[->|[->|(link & text & links & content & Hnodup & ->)]]].
  - exists [], []. split; [by vm_compute|]. split; [constructor|].
    split; [by vm_compute|]. split; [constructor|]. by intros ? ?%elem_of_nil.
  - exists [], []. split; [by vm_compute|]. split; [constructor|].
    split; [by vm_compute|]. split; [constructor|]. by intros ? ?%elem_of_nil.
  - exists [], []. split; [by vm_compute|]. split; [constructor|].
    split; [by vm_compute|]. split; [constructor|]. by intros ? ?%elem_of_nil.
  - exists links, (LicenseIdentifier.extract_licenses E content).
    destruct (full_result_fields url link (site_label link text content) links
                content (LicenseIdentifier.extract_licenses E content))
      as (_ & _ & Hl & Hm).
    split; [done|]. split; [done|]. split; [done|].
    unfold LicenseIdentifier.extract_licenses.
    destruct (negb (Py.truthy content)).
    + split; [constructor|by intros ? ?%elem_of_nil].
    + split; [apply list_of_set_NoDup|].
      intros name Hname. apply list_of_set_elem in Hname.
      apply elem_of_matching_names in Hname as [[]%elem_of_empty|(p & Hin & _)].
      unfold LICENSE_PATTERNS in Hin.
      repeat (apply elem_of_cons in Hin as [[= -> _]|Hin];
              [repeat ((by left) || right)|]).
      by apply elem_of_nil in Hin.
Qed.

Lemma site_results_app (l1 l2 : list string) (w : World E) :
  site_results E self (l1 ++ l2) w
  = site_results E self l1 w ++ site_results E self l2 (world_after E self l1 w).
Proof.
  revert w. induction l1 as [|url l1 IH]; intros w; [done|].
  cbn [app site_results world_after]. by rewrite IH.
Qed.

Lemma world_after_app (l1 l2 : list string) (w : World E) :
  world_after E self (l1 ++ l2) w
  = world_after E self l2 (world_after E self l1 w).
Proof.
  revert w. induction l1 as [|url l1 IH]; intros w; [done|].
  cbn [app world_after]. by rewrite IH.
Qed.

(** X20: scanning a list in one batch gives what scanning its first part
    and then, in the world that leaves, its second part gives: the results
    concatenated, the same final world. *)
Theorem scan_websites_app (l1 l2 : list string) (w : World E) :
  ∃ r1 w1 r2 w2,
    scan_websites E self l1 w = (Return r1, w1) ∧
    scan_websites E self l2 w1 = (Return r2, w2) ∧
    scan_websites E self (l1 ++ l2) w = (Return (r1 ++ r2), w2).
Proof.
  exists (site_results E self l1 w), (world_after E self l1 w),
    (site_results E self l2 (world_after E self l1 w)),
    (world_after E self l2 (world_after E self l1 w)).
  rewrite !scan_websites_unfold. by rewrite site_results_app, world_after_app.
Qed.

(** X21: the empty string is invalid whatever the validator says, and a
    batch of invalid URLs touches nothing: the world is unchanged and every
    result is the initial dict with [invalidUrl] set. *)
Theorem invalid_urls_need_no_network :
  _validate_url E "" = false ∧
  (∀ sites w,
     Forall (λ url, _validate_url E url = false) sites →
     scan_websites E self sites w
     = (Return ((λ url, <["invalidUrl" := PyBool true]> (initial_result url))
                  <$> sites), w)).
Proof.
  split; [done|]. intros sites w Hinvalid. rewrite scan_websites_unfold.
  revert w. induction Hinvalid as [|url sites Hurl _ IH]; intros w; [done|].
  cbn [site_results world_after fmap list_fmap]. unfold site_result.
  rewrite process_website_unfold, Hurl. cbn [negb snd].
  specialize (IH w). by injection IH as -> ->.
Qed.

End result_shape.

Lemma result_keys_witness :
  dom (default ∅ (head (Batch.site_results (Scenario.static_env Scenario.mit_web)
                          Scenario.detector ["https://x.org/"] [])))
  = list_to_set ["website"; "invalidUrl"; "blockedByRobotsTxt";
                 "licenseLink"; "licenseType"; "relevantLinks";
                 "licenseMentions"; "content"].
Proof.
  destruct (result_keys (Scenario.static_env Scenario.mit_web) Scenario.detector
              ["https://x.org/"] [] ["https://x.org/robots.txt"; "https://x.org/"]
              (Batch.site_results (Scenario.static_env Scenario.mit_web)
                 Scenario.detector ["https://x.org/"] [])
              (default ∅ (head (Batch.site_results
                                  (Scenario.static_env Scenario.mit_web)
                                  Scenario.detector ["https://x.org/"] []))))
    as [[_ Hdom]|[Herr _]].
  - vm_compute. reflexivity.
  - apply list_elem_of_here.
  - exact Hdom.
  - vm_compute in Herr. by destruct Herr.
Defined.

Lemma result_flags_witness :
  ∃ invalid blocked,
    (default ∅ (head (Batch.site_results (Scenario.static_env Scenario.broken_web)
                        Scenario.detector ["https://blocked.example/"] [])))
      !! "invalidUrl" = Some (PyBool invalid) ∧
    (default ∅ (head (Batch.site_results (Scenario.static_env Scenario.broken_web)
                        Scenario.detector ["https://blocked.example/"] [])))
      !! "blockedByRobotsTxt" = Some (PyBool blocked) ∧
    invalid && blocked = false.
Proof.
  destruct (result_flags (Scenario.static_env Scenario.broken_web)
              Scenario.detector ["https://blocked.example/"] []
              ["https://blocked.example/robots.txt"]
              (Batch.site_results (Scenario.static_env Scenario.broken_web)
                 Scenario.detector ["https://blocked.example/"] [])
              (default ∅ (head (Batch.site_results
                                  (Scenario.static_env Scenario.broken_web)
                                  Scenario.detector ["https://blocked.example/"] []))))
    as (invalid & blocked & Hi & Hb & Hboth & _).
  - vm_compute. reflexivity.
  - apply list_elem_of_here.
  - vm_compute. reflexivity.
  - by exists invalid, blocked.
Defined.

Lemma result_lists_no_duplicates_witness :
  ∃ links mentions,
    (default ∅ (head (Batch.site_results (Scenario.static_env Scenario.cc0_web)
                        Scenario.detector ["https://zero.example/"] [])))
      !! "relevantLinks" = Some (PyList links) ∧ NoDup links ∧
    (default ∅ (head (Batch.site_results (Scenario.static_env Scenario.cc0_web)
                        Scenario.detector ["https://zero.example/"] [])))
      !! "licenseMentions" = Some (PyList mentions) ∧ NoDup mentions ∧
    mentions ⊆ ["MIT License"; "Apache License"; "Creative Commons (CC)";
                "GNU GPL"; "BSD License"].
Proof.
  apply (result_lists_no_duplicates (Scenario.static_env Scenario.cc0_web)
           Scenario.detector ["https://zero.example/"] []
           ["https://zero.example/robots.txt"; "https://zero.example/";
            "https://zero.example/terms"]
           (Batch.site_results (Scenario.static_env Scenario.cc0_web)
              Scenario.detector ["https://zero.example/"] [])).
  - vm_compute. reflexivity.
  - apply list_elem_of_here.
  - vm_compute. reflexivity.
Defined.

Lemma invalid_urls_need_no_network_witness :
  LicenseDetector.scan_websites (Scenario.static_env Scenario.broken_web)
    Scenario.detector ["not a url"; ""; "x.org"] []
  = (Return ((λ url, <["invalidUrl" := PyBool true]>
                       (LicenseDetector.initial_result url))
               <$> ["not a url"; ""; "x.org"]), []).
Proof.
  destruct (invalid_urls_need_no_network (Scenario.static_env Scenario.broken_web)
              Scenario.detector) as [_ Hbatch].
  apply Hbatch. repeat constructor.
Defined.

(** ** The footer link against the content *)

Section url_precedence.
Import parameters UrlScan LicenseIdentifier LicenseDetector Batch.

Lemma determine_by_url (url text found : string) :
  cc0_indicator url text = false →
  first_match version_major (Py.lower url) = Some found →
  determine_cc_license url text = found.
Proof.
  intros Hcc0 Hfound. unfold determine_cc_license. rewrite !truthy_lower.
  unfold _check_for_cc0. unfold cc0_indicator in Hcc0. rewrite Hcc0.
  unfold _extract_license_from_url. rewrite scan_versions_first_match.
  fold version_major. rewrite Hfound.
  destruct url; [|done]. by vm_compute in Hfound.
Qed.

(** X22: for a site that runs the full pipeline, when the footer license
    link matches a "licenses/{type}/{version}" pattern and neither the link
    nor its text carries a CC0 indicator, the license type is the label of
    that pattern, whatever the anchor text and the aggregated content say. *)
Theorem url_pattern_wins_for_site (E : Env) (self : LicenseDetector.t)
    (url : string) (w w' : World E) (link text : string) (links : list string)
    (content found : string) :
  full_run E self url w link text links content w' →
  cc0_indicator link text = false →
  first_match version_major (Py.lower link) = Some found →
  ∃ result,
    _process_website E self url w = (Return result, w') ∧
    result !! "licenseType" = Some (PyStr found).
Proof.
  intros Hrun Hcc0 Hfound. eexists.
  split; [by apply process_website_full_run|].
  destruct (full_result_lookup url link (site_label link text content) links
              content (extract_licenses E content)) as (_ & _ & -> & _).
  unfold site_label. rewrite (determine_by_url link text found Hcc0 Hfound).
  apply first_match_Some in Hfound as [rest ->]. by rewrite bool_decide_eq_false_2.
Qed.

End url_precedence.

Lemma url_pattern_wins_for_site_witness :
  ∃ result,
    LicenseDetector._process_website (Scenario.static_env Scenario.cc_web)
      Scenario.detector "https://cc.example/" []
    = (Return result,
       ["https://cc.example/robots.txt"; "https://cc.example/";
        "https://cc.example/terms"]) ∧
    result !! "licenseType" = Some (PyStr "CC-BY-4.0").
Proof.
  apply (url_pattern_wins_for_site (Scenario.static_env Scenario.cc_web)
           Scenario.detector "https://cc.example/" [] _
           "https://creativecommons.org/licenses/by/4.0/" "CC BY 4.0"
           ["https://cc.example/terms"]
           "Photos are licensed under CC0. Text is under copyright").
  - exists ["https://cc.example/robots.txt"; "https://cc.example/"]. split.
    + apply (Batch.FooterRun (Scenario.static_env Scenario.cc_web)
               Scenario.detector _ _ _ _ _ _
               ["https://cc.example/robots.txt"] "<cc_page>" Scenario.cc_page);
        vm_compute; reflexivity.
    + vm_compute. reflexivity.
  - vm_compute. reflexivity.
  - vm_compute. reflexivity.
Defined.
